(** * Ollama model administration: the command layer [OllamaCLI]

    A shallow embedding of the class [OllamaCLI] of
    [Ollama_Model_Manager_Advanced.py]: the inventory parser [list_models]
    (structured listing with a positional-text fallback), the terminal
    commands ([remove_model], [stop_model], [show_modelfile]) and the
    streaming commands ([pull_model], [create_model_from_modelfile],
    [run_model_once], [prune]).

    Python text is a sequence of Unicode code points, Python values that come
    out of [json.loads] are a small inductive type, exceptions are an error
    monad, and everything the methods do to the outside (processes,
    callbacks, the temporary file, the log) is recorded in an explicit world
    that is threaded through the calls. *)

From Stdlib Require Import String Ascii DecimalString.
From Stdlib Require Import List ZArith NArith Bool Lia Sorted PrimFloat.
Import ListNotations.

(** ** Python text *)

Module PyStr.

(** A Python [str]: its code points, in order. *)
Definition str := list N.

(** A literal of the source, written as a Rocq string. *)
Definition lit (s : string) : str := map N_of_ascii (list_ascii_of_string s).

Fixpoint str_eqb (a b : str) : bool :=
  match a, b with
  | [], [] => true
  | x :: a', y :: b' => N.eqb x y && str_eqb a' b'
  | _, _ => false
  end.

(** [str.isspace] on one code point; it is also what [str.strip],
    [str.split] without separator and the pattern [\s] use. *)
Definition space_table : list N :=
  [9; 10; 11; 12; 13; 28; 29; 30; 31; 32; 133; 160; 5760;
   8192; 8193; 8194; 8195; 8196; 8197; 8198; 8199; 8200; 8201; 8202;
   8232; 8233; 8239; 8287; 12288]%N.

Definition is_space (c : N) : bool := existsb (N.eqb c) space_table.

(** The line boundaries of [str.splitlines]. *)
Definition linebreak_table : list N :=
  [10; 11; 12; 13; 28; 29; 30; 133; 8232; 8233]%N.

Definition is_linebreak (c : N) : bool := existsb (N.eqb c) linebreak_table.

(** Unicode decimal digits (category Nd, Unicode 14): every block holds the
    ten digits 0..9 in order, the table lists the code point of each zero.
    This is the class of the pattern [\d] on text, and the digits [int]
    accepts. *)
Definition Nd_starts : list N :=
  [48; 1632; 1776; 1984; 2406; 2534; 2662; 2790; 2918; 3046; 3174; 3302;
   3430; 3558; 3664; 3792; 3872; 4160; 4240; 6112; 6160; 6470; 6608; 6784;
   6800; 6992; 7088; 7232; 7248; 42528; 43216; 43264; 43472; 43504; 43600;
   44016; 65296; 66720; 68912; 69734; 69872; 69942; 70096; 70384; 70736;
   70864; 71248; 71360; 71472; 71904; 72016; 72784; 73040; 73120; 92768;
   92864; 93008; 120782; 120792; 120802; 120812; 120822; 123200; 123632;
   125264; 130032]%N.

Definition digit_value (c : N) : option N :=
  match find (fun z => N.leb z c && N.ltb c (z + 10)) Nd_starts with
  | Some z => Some (c - z)%N
  | None => None
  end.

Definition is_digit (c : N) : bool :=
  match digit_value c with Some _ => true | None => false end.

(** [s.lstrip(chars)] and [s.rstrip(chars)], the character set given as a
    predicate. *)
Fixpoint lstrip_with (p : N -> bool) (s : str) : str :=
  match s with
  | c :: t => if p c then lstrip_with p t else s
  | [] => []
  end.

Definition rstrip_with (p : N -> bool) (s : str) : str :=
  rev (lstrip_with p (rev s)).

(** [s.strip()] *)
Definition strip (s : str) : str :=
  rstrip_with is_space (lstrip_with is_space s).

(** [s.rstrip("\r\n")] *)
Definition rstrip_crlf (s : str) : str :=
  rstrip_with (fun c => N.eqb c 13 || N.eqb c 10) s.

(** [s.splitlines()]: the line boundaries are dropped, ["\r\n"] is one
    boundary, and no empty line is produced after the last boundary.
    [cur] holds the current line, reversed. *)
Fixpoint splitlines_from (cur : str) (s : str) : list str :=
  match s with
  | [] => match cur with [] => [] | _ => [rev cur] end
  | c :: t =>
      if is_linebreak c then
        rev cur ::
        (if N.eqb c 13 then
           match t with
           | c2 :: t2 =>
               if N.eqb c2 10 then splitlines_from [] t2
               else splitlines_from [] t
           | [] => splitlines_from [] t
           end
         else splitlines_from [] t)
      else splitlines_from (c :: cur) t
  end.

Definition splitlines (s : str) : list str := splitlines_from [] s.

(** [s.split()]: maximal runs of non-whitespace. *)
Fixpoint split_from (cur : str) (s : str) : list str :=
  match s with
  | [] => match cur with [] => [] | _ => [rev cur] end
  | c :: t =>
      if is_space c then
        match cur with
        | [] => split_from [] t
        | _ => rev cur :: split_from [] t
        end
      else split_from (c :: cur) t
  end.

Definition split (s : str) : list str := split_from [] s.

(** [s.split(sep)] and [s.split(sep, maxsplit)] for a separator of one
    character; [maxsplit = None] is the call without a bound. *)
Fixpoint split_sep_from (sep : N) (maxsplit : option nat) (cur : str)
  (s : str) : list str :=
  match s with
  | [] => [rev cur]
  | c :: t =>
      if N.eqb c sep then
        match maxsplit with
        | None => rev cur :: split_sep_from sep None [] t
        | Some (S k) => rev cur :: split_sep_from sep (Some k) [] t
        | Some O => split_sep_from sep maxsplit (c :: cur) t
        end
      else split_sep_from sep maxsplit (c :: cur) t
  end.

Definition split_sep (sep : N) (maxsplit : option nat) (s : str) : list str :=
  split_sep_from sep maxsplit [] s.

(** [sep.join(parts)] *)
Fixpoint join (sep : str) (parts : list str) : str :=
  match parts with
  | [] => []
  | [x] => x
  | x :: rest => x ++ sep ++ join sep rest
  end.

(** [needle in s] on text. *)
Fixpoint starts_with (needle s : str) : bool :=
  match needle, s with
  | [], _ => true
  | x :: n', y :: s' => N.eqb x y && starts_with n' s'
  | _ :: _, [] => false
  end.

Fixpoint contains (needle s : str) : bool :=
  starts_with needle s ||
  match s with
  | [] => false
  | _ :: t => contains needle t
  end.

(** [str(n)] of an integer, as an f-string renders it. *)
Definition str_of_Z (z : Z) : str := lit (NilZero.string_of_int (Z.to_int z)).

Fixpoint take_while (p : N -> bool) (s : str) : str :=
  match s with
  | c :: t => if p c then c :: take_while p t else []
  | [] => []
  end.

(** *** The two patterns of the source *)

(** [$] without MULTILINE: the end of the text, or just before a final
    newline. *)
Definition at_dollar (s : str) : bool :=
  match s with
  | [] => true
  | [c] => N.eqb c 10
  | _ => false
  end.

(** [\s*$]: the greedy star first, then one step back at a time. *)
Fixpoint spaces_dollar (s : str) : bool :=
  match s with
  | c :: t => (is_space c && spaces_dollar t) || at_dollar s
  | [] => true
  end.

(** [\d{k}%\s*$] at the head of [s], for a fixed count [k]; the digits are
    group 1. *)
Definition digits_percent (k : nat) (s : str) : option str :=
  let g := firstn k s in
  if Nat.eqb (length g) k && forallb is_digit g then
    match skipn k s with
    | c :: r => if N.eqb c 37 && spaces_dollar r then Some g else None
    | [] => None
    end
  else None.

(** [(\d{1,3})%\s*$] at the head of [s]: the greedy count tries three
    digits, then two, then one. *)
Definition percent_here (s : str) : option str :=
  match digits_percent 3 s with
  | Some g => Some g
  | None =>
      match digits_percent 2 s with
      | Some g => Some g
      | None => digits_percent 1 s
      end
  end.

(** [re.search(r"(\d{1,3})%\s*$", line)]: the leftmost start that matches;
    the result is [m.group(1)]. *)
Fixpoint search_percent (s : str) : option str :=
  match percent_here s with
  | Some g => Some g
  | None =>
      match s with
      | [] => None
      | _ :: t => search_percent t
      end
  end.

(** [q\d[^-]*] with IGNORECASE at the head of [s]; the result is
    [m.group(0)]. *)
Definition quant_here (s : str) : option str :=
  match s with
  | q :: d :: t =>
      if (N.eqb q 113 || N.eqb q 81) && is_digit d then
        Some (q :: d :: take_while (fun c => negb (N.eqb c 45)) t)
      else None
  | _ => None
  end.

(** [re.search(r"q\d[^-]*", variant, flags=re.IGNORECASE)] *)
Fixpoint search_quant (s : str) : option str :=
  match quant_here s with
  | Some m => Some m
  | None =>
      match s with
      | [] => None
      | _ :: t => search_quant t
      end
  end.

End PyStr.

Import PyStr.
Arguments lit s%_string.

(** ** Python values, exceptions *)

(** The exceptions below are the subclasses of [Exception]; [text] is what
    [str(e)] gives. *)
Inductive exn_kind :=
| TypeError | AttributeError | ValueError | IndexError | JSONDecodeError
| CalledProcessError | TimeoutExpired | OSError | FileNotFoundError
| OtherException.

Record exn := Exn { kind : exn_kind; text : str }.

Inductive result (A : Type) :=
| Ok (a : A)
| Raise (e : exn).

Arguments Ok {A} a.
Arguments Raise {A} e.

Definition rbind {A B} (r : result A) (k : A -> result B) : result B :=
  match r with
  | Ok a => k a
  | Raise e => Raise e
  end.

Notation "'let?' x := r 'in' k" := (rbind r (fun x => k))
  (at level 10, x name, r at level 100, k at level 200).

(** The values [json.loads] builds.  A dict keeps its insertion order; its
    keys are text. *)
#[local] Unset Elimination Schemes.
Inductive pyval :=
| PNone
| PBool (b : bool)
| PInt (z : Z)
| PFloat (f : float)
| PStr (s : str)
| PList (l : list pyval)
| PDict (d : list (str * pyval)).
#[local] Set Elimination Schemes.

Definition type_name (v : pyval) : str :=
  match v with
  | PNone => lit "NoneType"
  | PBool _ => lit "bool"
  | PInt _ => lit "int"
  | PFloat _ => lit "float"
  | PStr _ => lit "str"
  | PList _ => lit "list"
  | PDict _ => lit "dict"
  end.

(** Truth value of a Python value, as [or] and [if] test it. *)
Definition truthy (v : pyval) : bool :=
  match v with
  | PNone => false
  | PBool b => b
  | PInt z => negb (Z.eqb z 0)
  | PFloat f => negb (PrimFloat.eqb f 0%float)
  | PStr s => match s with [] => false | _ => true end
  | PList l => match l with [] => false | _ => true end
  | PDict d => match d with [] => false | _ => true end
  end.

(** Truth value of an [Optional[str]]. *)
Definition truthy_opt (o : option str) : bool :=
  match o with
  | Some (_ :: _) => true
  | _ => false
  end.

(** [o or default] on an [Optional[str]]. *)
Definition or_str (o : option str) (default : str) : str :=
  if truthy_opt o then match o with Some s => s | None => default end
  else default.

Definition no_attribute (v : pyval) (attr : str) : exn :=
  Exn AttributeError
    (lit "'" ++ type_name v ++ lit "' object has no attribute '" ++ attr
     ++ lit "'").

(** [needle in v] *)
Definition py_in (needle : str) (v : pyval) : result bool :=
  match v with
  | PStr s => Ok (contains needle s)
  | PList l =>
      Ok (existsb (fun x => match x with
                            | PStr t => str_eqb needle t
                            | _ => false
                            end) l)
  | PDict d => Ok (existsb (fun kv => str_eqb needle (fst kv)) d)
  | _ =>
      Raise (Exn TypeError
               (lit "argument of type '" ++ type_name v
                ++ lit "' is not iterable"))
  end.

(** [v.split(sep)] and [v.split(sep, maxsplit)] *)
Definition py_split (v : pyval) (sep : N) (maxsplit : option nat)
  : result (list str) :=
  match v with
  | PStr s => Ok (split_sep sep maxsplit s)
  | _ => Raise (no_attribute v (lit "split"))
  end.

(** [parts[i]] *)
Definition py_item (parts : list str) (i : nat) : result str :=
  match nth_error parts i with
  | Some x => Ok x
  | None => Raise (Exn IndexError (lit "list index out of range"))
  end.

(** [item.get(key, default)] *)
Definition py_get (item : pyval) (key : str) (default : pyval)
  : result pyval :=
  match item with
  | PDict d =>
      match find (fun kv => str_eqb key (fst kv)) d with
      | Some kv => Ok (snd kv)
      | None => Ok default
      end
  | _ => Raise (no_attribute item (lit "get"))
  end.

(** The items a [for] loop draws from a value. *)
Definition py_iter (v : pyval) : result (list pyval) :=
  match v with
  | PList l => Ok l
  | PDict d => Ok (map (fun kv => PStr (fst kv)) d)
  | PStr s => Ok (map (fun c => PStr [c]) s)
  | _ =>
      Raise (Exn TypeError
               (lit "'" ++ type_name v ++ lit "' object is not iterable"))
  end.

Fixpoint digits_to_Z (acc : Z) (s : str) : option Z :=
  match s with
  | [] => Some acc
  | c :: t =>
      match digit_value c with
      | Some d => digits_to_Z (10 * acc + Z.of_N d) t
      | None => None
      end
  end.

(** [int(s)] on a text of decimal digits.  The only call passes group 1 of
    [(\d{1,3})]; the sign, blanks and underscores [int] also reads are left
    out, such a text counts as invalid here. *)
Definition py_int (s : str) : result Z :=
  match s with
  | [] => Raise (Exn ValueError (lit "invalid literal for int() with base 10"))
  | _ =>
      match digits_to_Z 0 s with
      | Some v => Ok v
      | None =>
          Raise (Exn ValueError (lit "invalid literal for int() with base 10"))
      end
  end.

(** ** The world outside *)

Inductive event :=
| EvRun (argv : list str) (timeout : Z)   (* subprocess.run started a process *)
| EvPopen (argv : list str)               (* subprocess.Popen started one *)
| EvWait (code : Z)                       (* proc.wait() returned *)
| EvProgress (percent : Z) (line : str)   (* on_progress(percent, line) *)
| EvOutput (line : str)                   (* on_output(line) *)
| EvStream (line : str)                   (* on_stream(line) *)
| EvTempFile (path : str)                 (* the temporary file was created *)
| EvUnlink (path : str)                   (* os.unlink(path) was called *)
| EvLogError (msg : str).                 (* LOGGER.error(msg) *)

(** What has happened so far, and the files that exist. *)
Record world := World { trace : list event; files : list str }.

(** What a process run to completion gives back. *)
Inductive run_outcome :=
| RunRaises (e : exn)           (* no such program, timeout, ... *)
| RunCompleted (returncode : Z) (stdout stderr : option str).

(** A streaming process: either it cannot be started, or it prints [lines]
    (each with its newline, as the iteration over [proc.stdout] yields them)
    and exits with [code]. *)
Inductive popen_outcome :=
| PopenRaises (e : exn)
| PopenStarted (lines : list str) (code : Z).

(** [tempfile.NamedTemporaryFile(..., delete=False)] followed by [f.write]
    and the close at the end of the [with] block. *)
Inductive tempfile_outcome :=
| TempCreateRaises (e : exn)
| TempWriteRaises (path : str) (e : exn)
| TempWritten (path : str).

(** The behaviour of everything this code calls but does not define. *)
Class Env := {
  os_run : list str -> Z -> run_outcome;
  os_popen : list str -> popen_outcome;
  json_loads : str -> result pyval;
  os_tempfile : str -> tempfile_outcome;
  os_unlink_raises : str -> option exn;
  called_process_error_text : list str -> Z -> str
}.

(** A callable handed in by the caller: given what has happened so far and
    its argument, it returns ([None]) or raises.  What it raises is an
    [Exception], as everything of type [exn] is: the handlers of this class
    are [except Exception], and a callable that raises past them
    ([SystemExit], [KeyboardInterrupt]) has no counterpart here. *)
Definition callback (A : Type) := list event -> A -> option exn.

(** ** Effects *)

Definition M (A : Type) := world -> world * result A.

Definition ret {A} (a : A) : M A := fun w => (w, Ok a).

Definition raise {A} (e : exn) : M A := fun w => (w, Raise e).

Definition lift {A} (r : result A) : M A := fun w => (w, r).

Definition bind {A B} (m : M A) (k : A -> M B) : M B :=
  fun w =>
    match m w with
    | (w', Ok a) => k a w'
    | (w', Raise e) => (w', Raise e)
    end.

Notation "x <- m ;; k" := (bind m (fun x => k))
  (at level 61, m at next level, right associativity).

Definition emit (ev : event) : M unit :=
  fun w => (World (trace w ++ [ev]) (files w), Ok tt).

(** [try: m  except Exception as e: h e] *)
Definition try_except {A} (m : M A) (h : exn -> M A) : M A :=
  fun w =>
    match m w with
    | (w', Ok a) => (w', Ok a)
    | (w', Raise e) => h e w'
    end.

(** [try: m  finally: f] *)
Definition try_finally {A} (m : M A) (f : M unit) : M A :=
  fun w =>
    match m w with
    | (w', r) =>
        match f w' with
        | (w'', Ok _) => (w'', r)
        | (w'', Raise e) => (w'', Raise e)
        end
    end.

(** Calling a callback: the call is recorded, then the callback returns or
    raises. *)
Definition call {A} (cb : callback A) (ev : event) (a : A) : M unit :=
  fun w =>
    (World (trace w ++ [ev]) (files w),
     match cb (trace w) a with
     | None => Ok tt
     | Some e => Raise e
     end).

(** ** Processes *)

Record CompletedProcess := Completed {
  returncode : Z;
  stdout : option str;
  stderr : option str
}.

Record Popen := Proc { proc_stdout : list str; proc_code : Z }.

(** What CPython raises when the program of an argument vector is [None]:
    the vector is rejected while it is prepared, no process is started. *)
Definition none_program : exn :=
  Exn TypeError (lit "expected str, bytes or os.PathLike object, not NoneType").

(** [subprocess.run([program] + args, capture_output=True, text=True,
    encoding="utf-8", errors="replace", timeout=timeout, check=check)] *)
Definition subprocess_run `{Env} (program : option str) (args : list str)
  (timeout : Z) (check : bool) : M CompletedProcess :=
  match program with
  | None => raise none_program
  | Some p =>
      _ <- emit (EvRun (p :: args) timeout) ;;
      match os_run (p :: args) timeout with
      | RunRaises e => raise e
      | RunCompleted c out err =>
          if check && negb (Z.eqb c 0) then
            raise (Exn CalledProcessError
                     (called_process_error_text (p :: args) c))
          else ret (Completed c out err)
      end
  end.

(** [subprocess.Popen([program] + args, stdout=PIPE, stderr=STDOUT,
    text=True, encoding="utf-8", errors="replace", bufsize=1)]; with
    [stdout=PIPE] the attribute [proc.stdout] is never [None], which is what
    the [assert] after each call checks. *)
Definition subprocess_Popen `{Env} (program : option str) (args : list str)
  : M Popen :=
  match program with
  | None => raise none_program
  | Some p =>
      _ <- emit (EvPopen (p :: args)) ;;
      match os_popen (p :: args) with
      | PopenRaises e => raise e
      | PopenStarted lines code => ret (Proc lines code)
      end
  end.

(** [proc.wait()] *)
Definition wait (proc : Popen) : M Z :=
  _ <- emit (EvWait (proc_code proc)) ;;
  ret (proc_code proc).

(** The [with tempfile.NamedTemporaryFile(mode="w", delete=False,
    suffix=".modelfile", encoding="utf-8") as f] block: write the text, keep
    [f.name]. *)
Definition named_temporary_file `{Env} (modelfile_text : str) : M str :=
  match os_tempfile modelfile_text with
  | TempCreateRaises e => raise e
  | TempWriteRaises path e =>
      fun w => (World (trace w ++ [EvTempFile path]) (path :: files w),
                Raise e)
  | TempWritten path =>
      fun w => (World (trace w ++ [EvTempFile path]) (path :: files w),
                Ok path)
  end.

(** [os.unlink(path)] *)
Definition os_unlink `{Env} (path : str) : M unit :=
  fun w =>
    let w1 := World (trace w ++ [EvUnlink path]) (files w) in
    match os_unlink_raises path with
    | Some e => (w1, Raise e)
    | None =>
        if existsb (str_eqb path) (files w) then
          (World (trace w1)
             (filter (fun f => negb (str_eqb path f)) (files w)), Ok tt)
        else
          (w1, Raise (Exn FileNotFoundError
                        (lit "[Errno 2] No such file or directory")))
    end.

(** ** The class OllamaCLI *)

Record OllamaModelInfo := ModelInfo {
  name : pyval;
  size : pyval;
  modified : pyval;
  id : pyval;
  family : pyval;
  quant : pyval
}.

Record OllamaCLI := CLI { binary_path : option str; timeout : Z }.

Definition not_found_message : str :=
  lit "Ollama binary not found. Install from https://ollama.com/download".

Definition ensure_available `{Env} (self : OllamaCLI) : M (bool * str) :=
  if negb (truthy_opt (binary_path self)) then ret (false, not_found_message)
  else
    try_except
      (res <- subprocess_run (binary_path self) [lit "--version"]
                (timeout self) false ;;
       if Z.eqb (returncode res) 0 then
         ret (true, strip (or_str (stdout res) []))
       else
         ret (false, strip (or_str (stderr res) (lit "Cannot execute ollama"))))
      (fun e => ret (false, text e)).

(** [family] and [quant] from [name]: the statements of lines 151-157, which
    lines 179-185 repeat word for word. *)
Definition family_and_quant (name : pyval) : result (pyval * pyval) :=
  let? has_sep := py_in (lit ":") name in
  let? family :=
    (if has_sep then
       let? parts := py_split name 58 None in
       let? first := py_item parts 0 in
       Ok (PStr first)
     else Ok name) in
  let quant := PStr [] in
  let? has_sep := py_in (lit ":") name in
  if has_sep then
    let? parts := py_split name 58 (Some 1%nat) in
    let? variant := py_item parts 1 in
    match search_quant variant with
    | Some m => Ok (family, PStr m)
    | None => Ok (family, quant)
    end
  else Ok (family, quant).

(** One turn of the loop over the decoded listing (lines 147-158): the list
    [models] with the new record appended. *)
Definition json_item (item : pyval) (models : list OllamaModelInfo)
  : result (list OllamaModelInfo) :=
  let? name := py_get item (lit "name") (PStr []) in
  let? size := py_get item (lit "size") (PStr []) in
  let? modified := py_get item (lit "modified") (PStr []) in
  let? digest := py_get item (lit "digest") (PStr []) in
  let? _id :=
    (if truthy digest then Ok digest
     else py_get item (lit "id") (PStr [])) in
  let? fq := family_and_quant name in
  Ok (models ++ [ModelInfo name size modified _id (fst fq) (snd fq)]).

(** One turn of the loop over the text listing (lines 173-186); the first
    branch is the [continue]. *)
Definition text_line (line : str) (models : list OllamaModelInfo)
  : result (list OllamaModelInfo) :=
  let parts := split line in
  if Nat.ltb (length parts) 4 then Ok models
  else
    let name := PStr (nth 0 parts []) in
    let size := PStr (nth 1 parts []) in
    let modified := PStr (join (lit " ") (skipn 2 parts)) in
    let? fq := family_and_quant name in
    Ok (models ++ [ModelInfo name size modified (PStr []) (fst fq) (snd fq)]).

(** A [for] loop that appends to the list [models]: the list is one mutable
    object, so what was appended before a turn raised is still in it when
    the handler runs.  The result is the list at the end of the loop and the
    exception that ended it, if any. *)
Fixpoint append_loop {A} (body : A -> list OllamaModelInfo ->
                                 result (list OllamaModelInfo))
  (items : list A) (models : list OllamaModelInfo)
  : list OllamaModelInfo * option exn :=
  match items with
  | [] => (models, None)
  | item :: rest =>
      match body item models with
      | Ok models' => append_loop body rest models'
      | Raise e => (models, Some e)
      end
  end.

(** How control leaves the first [try] statement of [list_models]: through
    its [return models], or past it (the block ended without returning, or
    [except Exception: pass] swallowed an exception); either way with the
    list [models] as it is then. *)
Inductive flow :=
| Return (models : list OllamaModelInfo)
| Pass (models : list OllamaModelInfo).

(** Lines 137-161. *)
Definition list_models_json `{Env} (self : OllamaCLI)
  (models : list OllamaModelInfo) : M flow :=
  try_except
    (res <- subprocess_run (binary_path self)
              [lit "list"; lit "--format"; lit "json"] (timeout self) true ;;
     let text := strip (or_str (stdout res) []) in
     match text with
     | _ :: _ =>
         data <- lift (json_loads text) ;;
         items <- lift (py_iter data) ;;
         match append_loop json_item items models with
         | (models', None) => ret (Return models')
         | (models', Some _) => ret (Pass models')
         end
     | [] => ret (Pass models)
     end)
    (fun _ => ret (Pass models)).

(** The handler of the second [try] statement (lines 188-190). *)
Definition list_models_except (models : list OllamaModelInfo) (e : exn)
  : M (list OllamaModelInfo) :=
  _ <- emit (EvLogError (lit "Error listing models: " ++ text e)) ;;
  ret models.

(** Lines 163-190. *)
Definition list_models_text `{Env} (self : OllamaCLI)
  (models : list OllamaModelInfo) : M (list OllamaModelInfo) :=
  try_except
    (res <- subprocess_run (binary_path self) [lit "list"] (timeout self)
              true ;;
     let lines :=
       filter (fun ln => match strip ln with [] => false | _ => true end)
         (splitlines (or_str (stdout res) [])) in
     if Nat.leb (length lines) 1 then ret models
     else
       match append_loop text_line (skipn 1 lines) models with
       | (models', None) => ret models'
       | (models', Some e) => list_models_except models' e
       end)
    (list_models_except models).

Definition list_models `{Env} (self : OllamaCLI) : M (list OllamaModelInfo) :=
  let models := [] in
  if negb (truthy_opt (binary_path self)) then ret models
  else
    fl <- list_models_json self models ;;
    match fl with
    | Return models' => ret models'
    | Pass models' => list_models_text self models'
    end.

Definition remove_model `{Env} (self : OllamaCLI) (model_name : str)
  : M (bool * str) :=
  try_except
    (res <- subprocess_run (binary_path self) [lit "rm"; model_name] 120
              false ;;
     if Z.eqb (returncode res) 0 then
       ret (true, strip (or_str (stdout res) (lit "Removed")))
     else ret (false, strip (or_str (stderr res) (lit "Failed to remove"))))
    (fun e => ret (false, text e)).

Definition show_modelfile `{Env} (self : OllamaCLI) (model_name : str)
  : M (bool * option str) :=
  try_except
    (res <- subprocess_run (binary_path self)
              [lit "show"; model_name; lit "--modelfile"] 30 false ;;
     if Z.eqb (returncode res) 0 then ret (true, stdout res)
     else ret (false, stderr res))
    (fun e => ret (false, Some (text e))).

(** Lines 244-249: the running maximum after one line. *)
Definition next_percent (last_percent : Z) (line : str) : Z :=
  match search_percent line with
  | Some g =>
      match py_int g with
      | Ok v => Z.max last_percent (Z.min 100 v)
      | Raise _ => last_percent
      end
  | None => last_percent
  end.

(** Lines 241-250: the loop over [proc.stdout]; the result is
    [last_percent] at the end. *)
Fixpoint pull_loop (on_progress : option (callback (Z * str)))
  (last_percent : Z) (lines : list str) : M Z :=
  match lines with
  | [] => ret last_percent
  | line :: rest =>
      let line := rstrip_crlf line in
      match on_progress with
      | Some cb =>
          let last_percent := next_percent last_percent line in
          _ <- call cb (EvProgress last_percent line) (last_percent, line) ;;
          pull_loop on_progress last_percent rest
      | None => pull_loop on_progress last_percent rest
      end
  end.

Definition pull_model `{Env} (self : OllamaCLI) (model_ref : str)
  (on_progress : option (callback (Z * str))) : M (bool * str) :=
  try_except
    (proc <- subprocess_Popen (binary_path self) [lit "pull"; model_ref] ;;
     let last_percent := 0%Z in
     _ <- pull_loop on_progress last_percent (proc_stdout proc) ;;
     code <- wait proc ;;
     if Z.eqb code 0 then ret (true, lit "Pull complete")
     else ret (false, lit "Pull failed (code " ++ str_of_Z code ++ lit ")"))
    (fun e => ret (false, text e)).

(** Lines 271-273. *)
Fixpoint create_loop (on_output : option (callback str)) (lines : list str)
  : M unit :=
  match lines with
  | [] => ret tt
  | line :: rest =>
      match on_output with
      | Some cb =>
          _ <- call cb (EvOutput (rstrip_crlf line)) (rstrip_crlf line) ;;
          create_loop on_output rest
      | None => create_loop on_output rest
      end
  end.

Definition create_model_from_modelfile `{Env} (self : OllamaCLI) (name : str)
  (modelfile_text : str) (on_output : option (callback str))
  : M (bool * str) :=
  try_except
    (mf_path <- named_temporary_file modelfile_text ;;
     try_finally
       (proc <- subprocess_Popen (binary_path self)
                  [lit "create"; name; lit "-f"; mf_path] ;;
        _ <- create_loop on_output (proc_stdout proc) ;;
        code <- wait proc ;;
        if Z.eqb code 0 then ret (true, lit "Model created")
        else
          ret (false, lit "Create failed (code " ++ str_of_Z code ++ lit ")"))
       (try_except (os_unlink mf_path) (fun _ => ret tt)))
    (fun e => ret (false, text e)).

(** Lines 296-299: the loop fills the list [captured] and returns it. *)
Fixpoint run_loop (on_stream : option (callback str)) (captured : list str)
  (lines : list str) : M (list str) :=
  match lines with
  | [] => ret captured
  | line :: rest =>
      let captured := captured ++ [line] in
      match on_stream with
      | Some cb =>
          _ <- call cb (EvStream line) line ;;
          run_loop on_stream captured rest
      | None => run_loop on_stream captured rest
      end
  end.

Definition run_model_once `{Env} (self : OllamaCLI) (model_name prompt : str)
  (on_stream : option (callback str)) : M (bool * str) :=
  try_except
    (proc <- subprocess_Popen (binary_path self)
               [lit "run"; model_name; lit "--nowordwrap"; prompt] ;;
     captured <- run_loop on_stream [] (proc_stdout proc) ;;
     code <- wait proc ;;
     ret (Z.eqb code 0, join [] captured))
    (fun e => ret (false, text e)).

Definition stop_model `{Env} (self : OllamaCLI) (model_name : str)
  : M (bool * str) :=
  try_except
    (res <- subprocess_run (binary_path self) [lit "stop"; model_name] 15
              false ;;
     if Z.eqb (returncode res) 0 then
       ret (true, strip (or_str (stdout res) (lit "Stopped")))
     else ret (false, strip (or_str (stderr res) (lit "Failed to stop"))))
    (fun e => ret (false, text e)).

Definition prune `{Env} (self : OllamaCLI) : M (bool * str) :=
  try_except
    (proc <- subprocess_Popen (binary_path self) [lit "prune"] ;;
     out <- run_loop None [] (proc_stdout proc) ;;
     code <- wait proc ;;
     ret (Z.eqb code 0, join [] out))
    (fun e => ret (false, text e)).

(** ** Vocabulary of the properties *)

(** The result of a method run from world [w], and the events it added. *)
Definition outcome {A} (m : M A) (w : world) : result A := snd (m w).

Definition world_after {A} (m : M A) (w : world) : world := fst (m w).

(** The percent values handed to [on_progress], in the order of the calls. *)
Fixpoint percents (tr : list event) : list Z :=
  match tr with
  | [] => []
  | EvProgress p _ :: rest => p :: percents rest
  | _ :: rest => percents rest
  end.

(** The lines handed to [on_stream], in the order of the calls. *)
Fixpoint streamed (tr : list event) : list str :=
  match tr with
  | [] => []
  | EvStream l :: rest => l :: streamed rest
  | _ :: rest => streamed rest
  end.

(** A text without leading or trailing whitespace. *)
Definition stripped (s : str) : bool :=
  match s with
  | [] => true
  | c :: _ => negb (is_space c) && negb (is_space (last s c))
  end.

(** The value of a text of decimal digits (0 for any other text). *)
Definition decimal (s : str) : Z :=
  match digits_to_Z 0 s with
  | Some v => v
  | None => 0%Z
  end.

Definition last_three (tok : str) : str := skipn (length tok - 3) tok.

(** The numeric token a line ends with: the whole run of digits that stands
    immediately before a percent sign, itself followed by nothing but
    whitespace up to the end of the line. *)
Definition percent_token (line : str) : option str :=
  match rev (rstrip_with is_space line) with
  | c :: before =>
      if N.eqb c 37 then
        match rev (take_while is_digit before) with
        | [] => None
        | tok => Some tok
        end
      else None
  | [] => None
  end.

(** The progress rule in the words of the design text: a token that parses
    to a value in [0,100] raises the running maximum to it, any other line
    leaves the running maximum as it is. *)
Definition stated_next_percent (running_max : Z) (line : str) : Z :=
  match percent_token line with
  | Some tok =>
      if Z.leb (decimal tok) 100 then Z.max running_max (decimal tok)
      else running_max
  | None => running_max
  end.

(** The columns of a data line in the words of the design text: the name is
    every token before the last three, then the size, then a timestamp of
    two tokens. *)
Definition stated_columns (parts : list str) : str * str * str :=
  let n := length parts in
  (join (lit " ") (firstn (n - 3) parts),
   nth (n - 3) parts [],
   join (lit " ") (skipn (n - 2) parts)).

(** The columns [list_models] reads from a record. *)
Definition columns (r : OllamaModelInfo) : pyval * pyval * pyval :=
  (name r, size r, modified r).

(** Family and quantization derived from a name again: the text before the
    first [:] (all of it without one), and the token the pattern finds in
    the text after the first [:]. *)
Definition before_sep (s : str) : str :=
  take_while (fun c => negb (N.eqb c 58)) s.

Fixpoint after_sep (s : str) : option str :=
  match s with
  | [] => None
  | c :: t => if N.eqb c 58 then Some t else after_sep t
  end.

Definition quant_token (s : str) : str :=
  match after_sep s with
  | Some variant =>
      match search_quant variant with
      | Some m => m
      | None => []
      end
  | None => []
  end.

Definition derived (name : pyval) : pyval * pyval :=
  match name with
  | PStr s => (PStr (before_sep s), PStr (quant_token s))
  | _ => (name, PStr [])
  end.

(** A data line of the text listing is kept when it has four tokens or
    more. *)
Definition well_formed (line : str) : bool :=
  Nat.leb 4 (length (split line)).

(** What a kept line becomes: first token, second token, the rest joined by
    single blanks. *)
Definition row_of (line : str) (r : OllamaModelInfo) : Prop :=
  exists nm sz m1 m2 more,
    split line = nm :: sz :: m1 :: m2 :: more /\
    name r = PStr nm /\
    size r = PStr sz /\
    modified r = PStr (join (lit " ") (m1 :: m2 :: more)) /\
    id r = PStr [].

(** The non-blank lines of a listing after its header. *)
Definition data_lines (listing : str) : list str :=
  skipn 1
    (filter (fun ln => match strip ln with [] => false | _ => true end)
       (splitlines listing)).

(** The run of digits a text ends with. *)
Definition digit_suffix (X : str) : str := rev (take_while is_digit (rev X)).

(** A record whose [family] and [quant] are the ones its [name] gives. *)
Definition rederivable (r : OllamaModelInfo) : Prop :=
  (family r, quant r) = derived (name r).

(** The process of a terminal command runs and comes back. *)
Definition run_returns `{Env} (self : OllamaCLI) (args : list str)
  (timeout : Z) : Prop :=
  exists bin c out err,
    binary_path self = Some bin /\
    os_run (bin :: args) timeout = RunCompleted c out err.

(** The process of a streaming command starts, prints [lines] and exits
    with [code]. *)
Definition popen_starts `{Env} (self : OllamaCLI) (args : list str)
  (lines : list str) (code : Z) : Prop :=
  exists bin,
    binary_path self = Some bin /\
    os_popen (bin :: args) = PopenStarted lines code.

(** The callback, when one is given, returns from every call. *)
Definition never_raises {A} (cb : option (callback A)) : Prop :=
  match cb with
  | Some f => forall h a, f h a = None
  | None => True
  end.

(** ** A sample installation *)

Definition nl : str := [10%N].

Definition sample_listing : str :=
  lit "NAME  ID  SIZE  MODIFIED" ++ nl ++
  lit "llama3:8b  abc123  4.7GB  2 days ago" ++ nl ++
  nl ++
  lit "mistral:7b-q4_0  def456  3.8GB  1 day ago" ++ nl ++
  lit "half a line" ++ nl.

Definition sample_run (argv : list str) (timeout : Z) : run_outcome :=
  match argv with
  | _ :: sub :: rest =>
      if str_eqb sub (lit "list") then
        match rest with
        | [] => RunCompleted 0 (Some sample_listing) (Some [])
        | _ => RunCompleted 0 (Some (lit "{not json" ++ nl)) (Some [])
        end
      else if str_eqb sub (lit "show") then
        RunCompleted 0 (Some (lit "FROM llama3" ++ nl)) (Some [])
      else if str_eqb sub (lit "rm") then
        RunCompleted 0 (Some (lit "deleted 'llama3:8b'" ++ nl)) (Some [])
      else if str_eqb sub (lit "stop") then
        RunCompleted 1 (Some []) (Some (lit "Error: not running" ++ nl))
      else RunRaises (Exn OSError (lit "unknown command"))
  | _ => RunRaises (Exn OSError (lit "unknown command"))
  end.

Definition sample_popen (argv : list str) : popen_outcome :=
  match argv with
  | _ :: sub :: _ =>
      if str_eqb sub (lit "pull") then
        PopenStarted [lit "pulling manifest... 57%" ++ nl; lit "30%" ++ nl] 0
      else if str_eqb sub (lit "run") then
        PopenStarted [lit "hi" ++ nl] 0
      else PopenStarted [lit "success" ++ nl] 0
  | _ => PopenRaises (Exn OSError (lit "unknown command"))
  end.

Definition sample_env : Env := {|
  os_run := sample_run;
  os_popen := sample_popen;
  json_loads := fun _ =>
    Raise (Exn JSONDecodeError (lit "Expecting property name"));
  os_tempfile := fun _ => TempWritten (lit "/tmp/tmpk3v9.modelfile");
  os_unlink_raises := fun _ => None;
  called_process_error_text := fun _ _ => lit "returned non-zero exit status"
|}.

Definition sample_cli : OllamaCLI := CLI (Some (lit "/usr/bin/ollama")) 15.

Definition unresolved_cli : OllamaCLI := CLI None 15.

Definition start : world := World [] [].

(** A callback that always returns. *)
Definition quiet {A} : callback A := fun _ _ => None.

(** A callback that raises on every call. *)
Definition failing {A} : callback A :=
  fun _ _ => Some (Exn OtherException (lit "window closed")).

(** ** More of the class, and its callers in ModelAdminApp *)

Definition show_parameters `{Env} (self : OllamaCLI) (model_name : str)
  : M (bool * option str) :=
  try_except
    (res <- subprocess_run (binary_path self)
              [lit "show"; model_name; lit "--parameters"] 30 false ;;
     if Z.eqb (returncode res) 0 then ret (true, stdout res)
     else ret (false, stderr res))
    (fun e => ret (false, Some (text e))).

Definition server_running `{Env} (self : OllamaCLI) : M bool :=
  r <- ensure_available self ;;
  if negb (fst r) then ret false
  else
    try_except
      (_ <- subprocess_run (binary_path self) [lit "list"] 5 true ;;
       ret true)
      (fun _ => ret false).

(** Line 868: [[m.name.split(":")[0] for m in self.cli.list_models()]], the
    comprehension over the records. *)
Fixpoint installed_bases (models : list OllamaModelInfo) : result (list str) :=
  match models with
  | [] => Ok []
  | m :: rest =>
      let? parts := py_split (name m) 58 None in
      let? base := py_item parts 0 in
      let? bases := installed_bases rest in
      Ok (base :: bases)
  end.

(** The part of the application the background threads and the pump share:
    the three queues (oldest entry first), the two variables behind the
    status label and the progress bar, the messages handed to
    [LOGGER.info], and the number of refreshes asked for with
    [root.after(0, self.refresh_models)]. *)
Record ModelAdminApp := App {
  status_q : list str;
  progress_q : list Z;
  log_q : list str;
  status_var : str;
  progress_var : Z;
  logged : list str;
  refreshes : nat
}.

(** [self.status_q.put(msg)], [self.progress_q.put(v)],
    [self.log_q.put(line)]: the queues are unbounded, a [put] neither blocks
    nor raises. *)
Definition put_status (msg : str) (a : ModelAdminApp) : ModelAdminApp :=
  App (status_q a ++ [msg]) (progress_q a) (log_q a) (status_var a)
    (progress_var a) (logged a) (refreshes a).

Definition put_progress (v : Z) (a : ModelAdminApp) : ModelAdminApp :=
  App (status_q a) (progress_q a ++ [v]) (log_q a) (status_var a)
    (progress_var a) (logged a) (refreshes a).

Definition put_log (line : str) (a : ModelAdminApp) : ModelAdminApp :=
  App (status_q a) (progress_q a) (log_q a ++ [line]) (status_var a)
    (progress_var a) (logged a) (refreshes a).

Definition after_refresh (a : ModelAdminApp) : ModelAdminApp :=
  App (status_q a) (progress_q a) (log_q a) (status_var a)
    (progress_var a) (logged a) (S (refreshes a)).

(** The three loops of [pump] (lines 531-548), each
    [while True: try: x = q.get_nowait(); ... except queue.Empty: break],
    run while no other thread puts: each gives back what is left of its
    queue and the variable (or the log) it wrote to.  The [finally] clause
    only arms the timer for the next run. *)
Fixpoint pump_status (q : list str) (var : str) : list str * str :=
  match q with
  | [] => ([], var)
  | msg :: rest => pump_status rest msg
  end.

Fixpoint pump_progress (q : list Z) (var : Z) : list Z * Z :=
  match q with
  | [] => ([], var)
  | prog :: rest => pump_progress rest prog
  end.

Fixpoint pump_log (q : list str) (logged : list str) : list str * list str :=
  match q with
  | [] => ([], logged)
  | log :: rest => pump_log rest (logged ++ [log])
  end.

Definition pump (a : ModelAdminApp) : ModelAdminApp :=
  let (sq, sv) := pump_status (status_q a) (status_var a) in
  let (pq, pv) := pump_progress (progress_q a) (progress_var a) in
  let (lq, lg) := pump_log (log_q a) (logged a) in
  App sq pq lq sv pv lg (refreshes a).

(** The closure [on_progress] of [_pull_registry] (lines 739-741). *)
Definition on_progress (pct : Z) (line : str) (a : ModelAdminApp)
  : ModelAdminApp :=
  put_log line (put_progress (if Z.eqb pct 0 then 0%Z else pct) a).

(** The closure [on_out] of [_hf_create_model], [_local_create_model] and
    [_editor_create_model] (lines 791-798, 880-887, 935-942, the same
    statements). *)
Definition on_out (line : str) (a : ModelAdminApp) : ModelAdminApp :=
  let a := put_log line a in
  match search_percent line with
  | Some g =>
      match py_int g with
      | Ok v => put_progress v a
      | Raise _ => a
      end
  | None => a
  end.

(** What the calls of [on_progress] recorded in a trace did to the queues:
    the closure only [put]s, it never raises, so [pull_model] sees a
    callback that always returns, and the queues afterwards are what the
    recorded calls, replayed in order, make of them. *)
Definition replay (ev : event) (a : ModelAdminApp) : ModelAdminApp :=
  match ev with
  | EvProgress pct line => on_progress pct line a
  | _ => a
  end.

Fixpoint replay_all (evs : list event) (a : ModelAdminApp) : ModelAdminApp :=
  match evs with
  | [] => a
  | ev :: rest => replay_all rest (replay ev a)
  end.

(** The thread body [work] of [_pull_registry] (lines 738-746). *)
Definition pull_registry_work `{Env} (self : OllamaCLI) (ref : str)
  (a : ModelAdminApp) (w : world) : ModelAdminApp * world :=
  match pull_model self ref (Some quiet) w with
  | (w', r) =>
      let a := replay_all (skipn (length (trace w)) (trace w')) a in
      match r with
      | Ok (ok, msg) =>
          let a := put_log msg a in
          let a := after_refresh a in
          let a := put_status (lit "Ready") a in
          (put_progress (if ok : bool then 100%Z else 0%Z) a, w')
      | Raise _ => (a, w')
      end
  end.

(** [_hf_generate_modelfile] (lines 749-776): the text put into the preview,
    or nothing when the model id is empty. *)
Definition hf_generate_modelfile (hf_id_var hf_base_var : str)
  (hf_translation_var : bool) : option str :=
  let hf_id := strip hf_id_var in
  let base := strip hf_base_var in
  match hf_id with
  | [] => None
  | _ =>
      let lines :=
        [lit "FROM " ++ or_str (Some base) (lit "llama3");
         lit "HF_MODEL_ID " ++ hf_id;
         lit "PARAMETER temperature 0.7";
         lit "PARAMETER num_ctx 4096";
         lit "SYSTEM " ++ [34%N] ++ lit "You are a helpful assistant."
           ++ [34%N]] in
      let lines :=
        if hf_translation_var then
          lines ++
          [lit "TEMPLATE " ++ [34%N; 34%N; 34%N];
           lit "{{ .System }}";
           [];
           lit "Translate the following text to English:";
           [];
           lit "{{ .Prompt }}";
           [];
           lit "Translation:";
           [34%N; 34%N; 34%N]]
        else lines in
      Some (join [10%N] lines)
  end.

(** The [try] block under the [finally] of [create_model_from_modelfile]
    (lines 264-277), as it stands in that method. *)
Definition create_body `{Env} (self : OllamaCLI) (name mf_path : str)
  (on_output : option (callback str)) : M (bool * str) :=
  proc <- subprocess_Popen (binary_path self)
            [lit "create"; name; lit "-f"; mf_path] ;;
  _ <- create_loop on_output (proc_stdout proc) ;;
  code <- wait proc ;;
  if Z.eqb code 0 then ret (true, lit "Model created")
  else ret (false, lit "Create failed (code " ++ str_of_Z code ++ lit ")").

(** ** More vocabulary *)

(** A token of [str.split()]: not empty, no whitespace in it. *)
Definition token (t : str) : bool :=
  match t with
  | [] => false
  | _ => forallb (fun c => negb (is_space c)) t
  end.

Definition is_wait (ev : event) : bool :=
  match ev with
  | EvWait _ => true
  | _ => false
  end.

Definition is_spawn (ev : event) : bool :=
  match ev with
  | EvRun _ _ => true
  | EvPopen _ => true
  | _ => false
  end.

(** The lines handed to [on_progress], in the order of the calls. *)
Fixpoint progress_lines (tr : list event) : list str :=
  match tr with
  | [] => []
  | EvProgress _ l :: rest => l :: progress_lines rest
  | _ :: rest => progress_lines rest
  end.

(** The lines handed to [on_output], in the order of the calls. *)
Fixpoint output_lines (tr : list event) : list str :=
  match tr with
  | [] => []
  | EvOutput l :: rest => l :: output_lines rest
  | _ :: rest => output_lines rest
  end.

Definition is_crlf (c : N) : bool := N.eqb c 13 || N.eqb c 10.

(** The message [pull_model] returns after [proc.wait()]. *)
Definition pull_message (code : Z) : bool * str :=
  if Z.eqb code 0 then (true, lit "Pull complete")
  else (false, lit "Pull failed (code " ++ str_of_Z code ++ lit ")").

(** The same environment with another behaviour of [os.unlink]. *)
Definition with_unlink (E : Env) (f : str -> option exn) : Env := {|
  os_run := @os_run E;
  os_popen := @os_popen E;
  json_loads := @json_loads E;
  os_tempfile := @os_tempfile E;
  os_unlink_raises := f;
  called_process_error_text := @called_process_error_text E
|}.

(** An entry of the structured listing that gives a record: an object whose
    name, when present, is text. *)
Definition listed (item : pyval) : bool :=
  match item with
  | PDict _ =>
      match py_get item (lit "name") (PStr []) with
      | Ok (PStr _) => true
      | _ => false
      end
  | _ => false
  end.

(** [item.get(key, "")] on an object. *)
Definition field (item : pyval) (key : str) : pyval :=
  match py_get item key (PStr []) with
  | Ok v => v
  | Raise _ => PStr []
  end.

(** The record of a listed entry, field by field. *)
Definition record_of (item : pyval) (r : OllamaModelInfo) : Prop :=
  name r = field item (lit "name") /\
  size r = field item (lit "size") /\
  modified r = field item (lit "modified") /\
  id r = (if truthy (field item (lit "digest"))
          then field item (lit "digest") else field item (lit "id")) /\
  rederivable r.

(** The process ran and exited with code 0. *)
Definition exits_zero (o : run_outcome) : bool :=
  match o with
  | RunCompleted c _ _ => Z.eqb c 0
  | RunRaises _ => false
  end.

(** A row of the text listing: name and size are single tokens, the
    modification text is two or more tokens with single blanks between
    them. *)
Definition text_row (r : OllamaModelInfo) : Prop :=
  exists nm sz md,
    name r = PStr nm /\ size r = PStr sz /\ modified r = PStr md /\
    token nm = true /\ token sz = true /\
    (2 <= length (split md))%nat /\ join (lit " ") (split md) = md.

(** A quantization token: empty, or [q] or [Q], a decimal digit, and then
    no hyphen. *)
Definition quant_shape (q : str) : Prop :=
  q = [] \/
  exists c d rest,
    q = c :: d :: rest /\ (c = 113%N \/ c = 81%N) /\
    is_digit d = true /\ ~ In 45%N rest.

(** How family [f] and quantization [q] sit in the name [n]. *)
Definition name_parts (n f q : str) : Prop :=
  ~ In 58%N f /\ quant_shape q /\
  ((n = f /\ q = []) \/
   exists variant,
     n = f ++ 58%N :: variant /\
     (q = [] \/ exists pre post, variant = pre ++ q ++ post)).

(** One [put] of a background thread. *)
Inductive put :=
| PutStatus (msg : str)
| PutProgress (v : Z)
| PutLog (line : str).

Definition apply_put (p : put) (a : ModelAdminApp) : ModelAdminApp :=
  match p with
  | PutStatus msg => put_status msg a
  | PutProgress v => put_progress v a
  | PutLog line => put_log line a
  end.

Fixpoint apply_puts (ps : list put) (a : ModelAdminApp) : ModelAdminApp :=
  match ps with
  | [] => a
  | p :: rest => apply_puts rest (apply_put p a)
  end.

(** The stream a terminal command reports: standard output when the
    process exited with code 0, standard error otherwise. *)
Definition reported (c : Z) (out err : option str) : option str :=
  if Z.eqb c 0 then out else err.

(** [pct or 0] *)
Definition or_zero (pct : Z) : Z := if Z.eqb pct 0 then 0%Z else pct.

(** The entries a sequence of puts adds to each queue. *)
Fixpoint put_statuses (ps : list put) : list str :=
  match ps with
  | [] => []
  | PutStatus msg :: rest => msg :: put_statuses rest
  | _ :: rest => put_statuses rest
  end.

Fixpoint put_progresses (ps : list put) : list Z :=
  match ps with
  | [] => []
  | PutProgress v :: rest => v :: put_progresses rest
  | _ :: rest => put_progresses rest
  end.

Fixpoint put_logs (ps : list put) : list str :=
  match ps with
  | [] => []
  | PutLog line :: rest => line :: put_logs rest
  | _ :: rest => put_logs rest
  end.

(** The message [create_model_from_modelfile] returns after [proc.wait()]. *)
Definition create_message (code : Z) : bool * str :=
  if Z.eqb code 0 then (true, lit "Model created")
  else (false, lit "Create failed (code " ++ str_of_Z code ++ lit ")").

(** The message of a terminal command: the reported stream without the
    whitespace around it, or the fixed text of the method when the stream is
    missing or empty. *)
Definition terminal_message (stream : option str) (fixed : str) : str :=
  match stream with
  | Some (c :: s) => strip (c :: s)
  | _ => fixed
  end.

Definition is_unlink (ev : event) : bool :=
  match ev with
  | EvUnlink _ => true
  | _ => false
  end.










(** The first process of [list_models]. *)
Definition json_argv (bin : str) : list str :=
  bin :: [lit "list"; lit "--format"; lit "json"].

(** A sample with a structured listing. *)
Definition sample_items : list pyval :=
  [PDict [(lit "name", PStr (lit "llama3:8b"));
          (lit "size", PInt 4661224676);
          (lit "modified", PStr (lit "2 days ago"));
          (lit "digest", PStr (lit "abc123"))];
   PDict [(lit "name", PStr (lit "mistral:7b-q4_0"));
          (lit "id", PStr (lit "def456"))]].

Definition json_env (data : pyval) : Env := {|
  os_run := fun argv _ =>
    match argv with
    | [_; _; _; _] => RunCompleted 0 (Some (lit "[...]" ++ nl)) (Some [])
    | _ => sample_run argv 0
    end;
  os_popen := sample_popen;
  json_loads := fun _ => Ok data;
  os_tempfile := fun _ => TempWriteRaises (lit "/tmp/tmpk3v9.modelfile")
                            (Exn OSError (lit "[Errno 28] No space left"));
  os_unlink_raises := fun _ => Some (Exn OSError (lit "[Errno 13] denied"));
  called_process_error_text := fun _ _ => lit "returned non-zero exit status"
|}.

(** A sample whose every process fails to start. *)
Definition broken_env : Env := {|
  os_run := fun _ _ => RunRaises (Exn OSError (lit "[Errno 8] Exec format"));
  os_popen := fun _ => PopenRaises (Exn OSError (lit "[Errno 8] Exec format"));
  json_loads := fun _ => Raise (Exn JSONDecodeError (lit "Expecting value"));
  os_tempfile := fun _ => TempCreateRaises (Exn OSError (lit "[Errno 13]"));
  os_unlink_raises := fun _ => None;
  called_process_error_text := fun _ _ => lit "returned non-zero exit status"
|}.

Definition empty_app : ModelAdminApp := App [] [] [] (lit "Ready") 0 [] 0.

(** * Facts *)

(** ** Text *)

Lemma lstrip_with_split (p : N -> bool) (s : str) :
  exists pre, s = pre ++ lstrip_with p s /\ forallb p pre = true.
Proof.
  induction s as [|c t IH]; simpl.
  - exists []; auto.
  - destruct (p c) eqn:Hc.
    + destruct IH as [pre [H1 H2]].
      exists (c :: pre); simpl; rewrite Hc, H2, <- H1; auto.
    + exists []; auto.
Qed.

Lemma lstrip_with_head (p : N -> bool) (s : str) (c : N) (t : str) :
  lstrip_with p s = c :: t -> p c = false.
Proof.
  induction s as [|a s IH]; simpl; [discriminate|].
  destruct (p a) eqn:Ha; auto.
  intros H; injection H as H _; subst; exact Ha.
Qed.

Lemma lstrip_with_all (p : N -> bool) (a b : str) :
  forallb p a = true -> lstrip_with p (a ++ b) = lstrip_with p b.
Proof.
  induction a as [|c a IH]; simpl; auto.
  destruct (p c); simpl; [auto|discriminate].
Qed.

Lemma strip_unfold (s : str) :
  strip s = rev (lstrip_with is_space (rev (lstrip_with is_space s))).
Proof. reflexivity. Qed.



Lemma percents_app (a b : list event) :
  percents (a ++ b) = percents a ++ percents b.
Proof.
  induction a as [|e a IH]; simpl; auto.
  destruct e; simpl; rewrite ?IH; reflexivity.
Qed.

(** ** The progress loop *)

Lemma next_percent_bounds (rm : Z) (line : str) :
  (rm <= next_percent rm line <= Z.max rm 100)%Z.
Proof.
  unfold next_percent.
  destruct (search_percent line); [destruct (py_int s)|]; lia.
Qed.

Lemma pull_loop_events (on_progress : option (callback (Z * str)))
  (lines : list str) :
  forall (rm : Z) (w : world), (0 <= rm <= 100)%Z ->
  exists evs,
    fst (pull_loop on_progress rm lines w) = World (trace w ++ evs) (files w)
    /\ StronglySorted Z.le (percents evs)
    /\ Forall (fun p => rm <= p <= 100)%Z (percents evs).
Proof.
  induction lines as [|line rest IH]; intros rm w Hrm.
  - exists []; simpl; rewrite app_nil_r; destruct w; repeat split; constructor.
  - simpl. destruct on_progress as [cb|]; [|apply IH; exact Hrm].
    set (l := rstrip_crlf line).
    pose proof (next_percent_bounds rm l) as Hb.
    set (rm' := next_percent rm l) in *.
    unfold bind, call.
    destruct (cb (trace w) (rm', l)) as [e|].
    + exists [EvProgress rm' l]; simpl; repeat split.
      * repeat constructor.
      * repeat constructor; lia.
    + destruct (IH rm' (World (trace w ++ [EvProgress rm' l]) (files w)))
        as [evs [H1 [H2 H3]]]; [lia|].
      exists (EvProgress rm' l :: evs); simpl in *.
      rewrite H1, <- app_assoc; repeat split.
      * constructor; [exact H2|].
        eapply Forall_impl; [|exact H3]; simpl; intros; lia.
      * constructor; [lia|].
        eapply Forall_impl; [|exact H3]; simpl; intros; lia.
Qed.

Lemma pull_model_events `{Env} (self : OllamaCLI) (model_ref : str)
  (on_progress : option (callback (Z * str))) (w : world) :
  exists evs,
    world_after (pull_model self model_ref on_progress) w
      = World (trace w ++ evs) (files w)
    /\ StronglySorted Z.le (percents evs)
    /\ Forall (fun p => 0 <= p <= 100)%Z (percents evs).
Proof.
  unfold world_after, pull_model, try_except, bind, subprocess_Popen.
  destruct (binary_path self) as [bin|].
  - unfold bind, emit, raise, ret; simpl.
    destruct (os_popen _) as [e|lines code]; simpl.
    + exists [EvPopen (bin :: [lit "pull"; model_ref])]; simpl.
      repeat split; constructor.
    + set (w1 := World _ _).
      destruct (pull_loop_events on_progress lines 0%Z w1)
        as [evs [H1 [H2 H3]]]; [lia|].
      destruct (pull_loop on_progress 0 lines w1) as [w2 r] eqn:Hl.
      simpl in H1; subst w2 w1; simpl.
      destruct r as [p|e]; simpl.
      * unfold wait, bind, emit, ret; simpl.
        exists (EvPopen (bin :: [lit "pull"; model_ref]) :: evs
                ++ [EvWait code]).
        destruct (Z.eqb code 0); simpl;
          rewrite <- !app_assoc; simpl; rewrite percents_app; simpl;
          rewrite app_nil_r; auto.
      * exists (EvPopen (bin :: [lit "pull"; model_ref]) :: evs).
        simpl; rewrite <- app_assoc; auto.
  - exists []; simpl; rewrite app_nil_r; destruct w; repeat split; constructor.
Qed.

(** ** The percent pattern *)

Lemma percent_not_space : is_space 37 = false.
Proof. reflexivity. Qed.

Lemma percent_not_digit : is_digit 37 = false.
Proof. reflexivity. Qed.

Lemma forallb_rev (p : N -> bool) (l : str) :
  forallb p (rev l) = forallb p l.
Proof.
  induction l as [|c l IH]; simpl; auto.
  rewrite forallb_app, IH; simpl; rewrite andb_true_r; apply andb_comm.
Qed.

Lemma spaces_dollar_all (s : str) : spaces_dollar s = forallb is_space s.
Proof.
  induction s as [|c s IH]; [reflexivity|].
  change (spaces_dollar (c :: s))
    with ((is_space c && spaces_dollar s) || at_dollar (c :: s)).
  change (forallb is_space (c :: s)) with (is_space c && forallb is_space s).
  rewrite IH.
  destruct s as [|d s].
  - simpl. destruct (N.eqb_spec c 10) as [->|]; [reflexivity|].
    rewrite andb_true_r, orb_false_r; reflexivity.
  - change (at_dollar (c :: d :: s)) with false; apply orb_false_r.
Qed.

Lemma lstrip_rev_tail (X ws : str) :
  forallb is_space ws = true ->
  lstrip_with is_space (rev (X ++ 37%N :: ws)) = 37%N :: rev X.
Proof.
  intros Hws.
  rewrite rev_app_distr; simpl rev; rewrite <- !app_assoc.
  rewrite lstrip_with_all by (rewrite forallb_rev; exact Hws).
  reflexivity.
Qed.

Lemma percent_tail_unique (X Y ws ws' : str) :
  X ++ 37%N :: ws = Y ++ 37%N :: ws' ->
  forallb is_space ws = true -> forallb is_space ws' = true ->
  X = Y.
Proof.
  intros He Hw Hw'.
  pose proof (lstrip_rev_tail X ws Hw) as H1.
  rewrite He, (lstrip_rev_tail Y ws' Hw') in H1.
  injection H1 as H1.
  rewrite <- (rev_involutive X), <- (rev_involutive Y), H1; reflexivity.
Qed.

Lemma digits_percent_sound (k : nat) (s g : str) :
  digits_percent k s = Some g ->
  exists ws, s = g ++ 37%N :: ws /\ forallb is_space ws = true
             /\ forallb is_digit g = true /\ length g = k.
Proof.
  unfold digits_percent.
  destruct (Nat.eqb (length (firstn k s)) k) eqn:Hl; [|discriminate].
  destruct (forallb is_digit (firstn k s)) eqn:Hd; [|discriminate].
  simpl.
  destruct (skipn k s) as [|c r] eqn:Hs; [discriminate|].
  destruct (N.eqb_spec c 37) as [->|]; [|discriminate].
  simpl.
  destruct (spaces_dollar r) eqn:Hr; [|discriminate].
  intros H; injection H as <-.
  exists r; rewrite <- Hs, firstn_skipn, <- spaces_dollar_all.
  apply Nat.eqb_eq in Hl; auto.
Qed.

Lemma percent_here_sound (s g : str) :
  percent_here s = Some g ->
  exists ws, s = g ++ 37%N :: ws /\ forallb is_space ws = true
             /\ forallb is_digit g = true /\ (1 <= length g <= 3)%nat.
Proof.
  unfold percent_here.
  destruct (digits_percent 3 s) as [g3|] eqn:E3.
  { intros H; injection H as ->.
    destruct (digits_percent_sound _ _ _ E3) as [ws [? [? [? ?]]]].
    exists ws; repeat split; auto; lia. }
  destruct (digits_percent 2 s) as [g2|] eqn:E2.
  { intros H; injection H as ->.
    destruct (digits_percent_sound _ _ _ E2) as [ws [? [? [? ?]]]].
    exists ws; repeat split; auto; lia. }
  intros E1.
  destruct (digits_percent_sound _ _ _ E1) as [ws [? [? [? ?]]]].
  exists ws; repeat split; auto; lia.
Qed.

Lemma digits_percent_exact (g ws : str) :
  forallb is_digit g = true -> forallb is_space ws = true ->
  digits_percent (length g) (g ++ 37%N :: ws) = Some g.
Proof.
  intros Hg Hw; unfold digits_percent.
  rewrite firstn_app, firstn_all, Nat.sub_diag; simpl firstn.
  rewrite app_nil_r, Nat.eqb_refl, Hg; simpl.
  rewrite skipn_app, skipn_all, Nat.sub_diag; simpl.
  rewrite spaces_dollar_all, Hw; reflexivity.
Qed.

(** At a given start the pattern matches exactly when one to three digits
    stand before the final percent sign. *)
Lemma percent_here_char (X ws : str) :
  forallb is_space ws = true ->
  percent_here (X ++ 37%N :: ws) =
    if forallb is_digit X && Nat.leb 1 (length X) && Nat.leb (length X) 3
    then Some X else None.
Proof.
  intros Hw.
  destruct (percent_here (X ++ 37%N :: ws)) as [g|] eqn:Hp.
  - destruct (percent_here_sound _ _ Hp) as [ws' [He [Hw' [Hg Hl]]]].
    assert (X = g) by (eapply percent_tail_unique; eauto).
    subst g; rewrite Hg.
    destruct Hl as [Hl1 Hl2].
    apply Nat.leb_le in Hl1, Hl2; rewrite Hl1, Hl2; reflexivity.
  - destruct (forallb is_digit X) eqn:Hg; [|reflexivity].
    destruct (Nat.leb_spec 1 (length X)); [|reflexivity].
    destruct (Nat.leb_spec (length X) 3); [|reflexivity].
    exfalso.
    pose proof (digits_percent_exact X ws Hg Hw) as Hx.
    unfold percent_here in Hp.
    destruct (digits_percent 3 _) eqn:E3; [discriminate|].
    destruct (digits_percent 2 _) eqn:E2; [discriminate|].
    assert (Hc : (length X = 1 \/ length X = 2 \/ length X = 3)%nat) by lia.
    destruct Hc as [Hc|[Hc|Hc]]; rewrite Hc in Hx; congruence.
Qed.

Lemma search_percent_sound (s g : str) :
  search_percent s = Some g ->
  exists pre ws, s = pre ++ g ++ 37%N :: ws /\ forallb is_space ws = true
                 /\ forallb is_digit g = true /\ (1 <= length g <= 3)%nat.
Proof.
  induction s as [|c s IH].
  - intros H; vm_compute in H; discriminate.
  - simpl. destruct (percent_here (c :: s)) eqn:Hp.
    + intros H; injection H as ->.
      destruct (percent_here_sound _ _ Hp) as [ws ?]; exists [], ws; auto.
    + intros H; destruct (IH H) as [pre [ws [-> ?]]].
      exists (c :: pre), ws; auto.
Qed.

Lemma search_percent_spaces (ws : str) :
  forallb is_space ws = true -> search_percent ws = None.
Proof.
  intros Hw; destruct (search_percent ws) as [g|] eqn:Hs; [|reflexivity].
  destruct (search_percent_sound _ _ Hs) as [pre [ws' [He _]]].
  assert (Hin : In 37%N ws) by (rewrite He, !in_app_iff; simpl; auto).
  rewrite forallb_forall in Hw; apply Hw in Hin.
  rewrite percent_not_space in Hin; discriminate.
Qed.

Lemma take_while_all (p : N -> bool) (a : str) :
  forallb p a = true -> take_while p a = a.
Proof.
  induction a as [|c a IH]; simpl; auto.
  destruct (p c); simpl; [intros; f_equal; auto|discriminate].
Qed.

Lemma take_while_forall (p : N -> bool) (a : str) :
  forallb p (take_while p a) = true.
Proof.
  induction a as [|c a IH]; simpl; auto.
  destruct (p c) eqn:Hc; simpl; [rewrite Hc; auto|auto].
Qed.

Lemma take_while_snoc (p : N -> bool) (a : str) (c : N) :
  take_while p (a ++ [c]) =
    if forallb p a then a ++ (if p c then [c] else []) else take_while p a.
Proof.
  induction a as [|d a IH]; simpl.
  - destruct (p c); reflexivity.
  - destruct (p d); simpl; [|reflexivity].
    rewrite IH; destruct (forallb p a); reflexivity.
Qed.

Lemma digit_suffix_cons (c : N) (X : str) :
  digit_suffix (c :: X) =
    if forallb is_digit X && is_digit c then c :: X else digit_suffix X.
Proof.
  unfold digit_suffix; simpl rev.
  rewrite take_while_snoc, forallb_rev.
  destruct (forallb is_digit X) eqn:HX; simpl; [|reflexivity].
  destruct (is_digit c).
  - rewrite rev_app_distr, rev_involutive; reflexivity.
  - rewrite app_nil_r, take_while_all by (rewrite forallb_rev; exact HX).
    reflexivity.
Qed.

Lemma last_three_short (X : str) : (length X <= 3)%nat -> last_three X = X.
Proof.
  intros H; unfold last_three.
  replace (length X - 3)%nat with 0%nat by lia; reflexivity.
Qed.

Lemma last_three_cons (c : N) (X : str) :
  (3 <= length X)%nat -> last_three (c :: X) = last_three X.
Proof.
  intros H; unfold last_three.
  replace (length (c :: X) - 3)%nat with (S (length X - 3)) by (simpl; lia).
  reflexivity.
Qed.

Lemma search_percent_before (ws : str) :
  forallb is_space ws = true ->
  forall X,
    search_percent (X ++ 37%N :: ws) =
      match digit_suffix X with
      | [] => None
      | tok => Some (last_three tok)
      end.
Proof.
  intros Hw; induction X as [|c X IH].
  - pose proof (percent_here_char [] ws Hw) as Hp.
    change ([] ++ 37%N :: ws) with (37%N :: ws) in *.
    change (search_percent (37%N :: ws)) with
      (match percent_here (37%N :: ws) with
       | Some g => Some g
       | None => search_percent ws
       end).
    rewrite Hp; cbn.
    apply search_percent_spaces; exact Hw.
  - pose proof (percent_here_char (c :: X) ws Hw) as Hp.
    change (search_percent ((c :: X) ++ 37%N :: ws)) with
      (match percent_here ((c :: X) ++ 37%N :: ws) with
       | Some g => Some g
       | None => search_percent (X ++ 37%N :: ws)
       end).
    rewrite Hp, digit_suffix_cons.
    assert (Hfd : forallb is_digit (c :: X) = forallb is_digit X && is_digit c)
      by (simpl; apply andb_comm).
    assert (H1 : Nat.leb 1 (length (c :: X)) = true) by reflexivity.
    rewrite Hfd, H1, andb_true_r.
    destruct (forallb is_digit X && is_digit c) eqn:Hd;
      [rewrite andb_true_l|rewrite andb_false_l].
    + destruct (Nat.leb_spec (length (c :: X)) 3) as [Hl|Hl].
      * rewrite last_three_short by exact Hl; reflexivity.
      * rewrite IH.
        apply andb_prop in Hd; destruct Hd as [HX _].
        unfold digit_suffix.
        rewrite take_while_all by (rewrite forallb_rev; exact HX).
        rewrite rev_involutive.
        destruct X as [|d X]; [simpl in Hl; lia|].
        rewrite (last_three_cons c (d :: X)) by (simpl in *; lia); reflexivity.
    + exact IH.
Qed.

Lemma search_percent_token (line : str) :
  search_percent line = option_map last_three (percent_token line).
Proof.
  unfold percent_token, rstrip_with; rewrite rev_involutive.
  destruct (lstrip_with_split is_space (rev line)) as [pre [H1 H2]].
  assert (Hno : forall c before,
             lstrip_with is_space (rev line) = c :: before -> c <> 37%N ->
             search_percent line = None).
  { intros c before Hl Hc.
    destruct (search_percent line) as [g|] eqn:Hs; [exfalso|reflexivity].
    destruct (search_percent_sound _ _ Hs) as [p [ws [He [Hw _]]]].
    rewrite He, app_assoc, lstrip_rev_tail in Hl by exact Hw.
    injection Hl as Hl _; auto. }
  destruct (lstrip_with is_space (rev line)) as [|c before] eqn:Hl.
  - destruct (search_percent line) as [g|] eqn:Hs; [exfalso|reflexivity].
    destruct (search_percent_sound _ _ Hs) as [p [ws [He [Hw _]]]].
    rewrite He, app_assoc, lstrip_rev_tail in Hl by exact Hw.
    discriminate.
  - destruct (N.eqb_spec c 37) as [->|Hc].
    + assert (He : line = rev before ++ 37%N :: rev pre).
      { rewrite <- (rev_involutive line), H1, rev_app_distr; simpl.
        rewrite <- app_assoc; reflexivity. }
      rewrite He at 1.
      rewrite search_percent_before by (rewrite forallb_rev; exact H2).
      unfold digit_suffix; rewrite rev_involutive.
      destruct (rev (take_while is_digit before)); reflexivity.
    + apply (Hno c before); auto.
Qed.

Lemma percent_token_digits (line tok : str) :
  percent_token line = Some tok ->
  forallb is_digit tok = true /\ tok <> [].
Proof.
  unfold percent_token.
  destruct (rev (rstrip_with is_space line)) as [|c before]; [discriminate|].
  destruct (N.eqb c 37); [|discriminate].
  destruct (rev (take_while is_digit before)) as [|d l] eqn:E; [discriminate|].
  intros H; injection H as <-.
  rewrite <- E, forallb_rev, take_while_forall; split; [reflexivity|].
  rewrite E; discriminate.
Qed.

Lemma last_three_digits (tok : str) :
  forallb is_digit tok = true -> tok <> [] ->
  forallb is_digit (last_three tok) = true /\ last_three tok <> [].
Proof.
  intros Hd Hne; unfold last_three.
  set (n := (length tok - 3)%nat).
  rewrite <- (firstn_skipn n tok), forallb_app in Hd.
  apply andb_prop in Hd; destruct Hd as [_ Hd]; split; [exact Hd|].
  intros He; apply (f_equal (@length N)) in He.
  rewrite length_skipn in He; unfold n in He.
  destruct tok as [|c t]; [congruence|].
  change (length (c :: t)) with (S (length t)) in He.
  change (length (@nil N)) with 0%nat in He; lia.
Qed.

(** ** Decimal values *)

Lemma digit_value_bound (c d : N) : digit_value c = Some d -> (d < 10)%N.
Proof.
  unfold digit_value.
  destruct (find _ Nd_starts) as [z|] eqn:Hf; [|discriminate].
  intros H; injection H as <-.
  apply find_some in Hf; destruct Hf as [_ Hf].
  apply andb_prop in Hf; destruct Hf as [H1 H2].
  apply N.leb_le in H1; apply N.ltb_lt in H2; lia.
Qed.

Lemma digits_to_Z_value (s : str) :
  forallb is_digit s = true ->
  exists v, (0 <= v < 10 ^ Z.of_nat (length s))%Z /\
            forall acc,
              digits_to_Z acc s = Some (acc * 10 ^ Z.of_nat (length s) + v)%Z.
Proof.
  induction s as [|c t IH]; intros Hd.
  - exists 0%Z; split; [simpl; lia|intros acc; simpl; f_equal; lia].
  - simpl in Hd; apply andb_prop in Hd; destruct Hd as [Hc Ht].
    destruct (IH Ht) as [v [Hv Hacc]].
    unfold is_digit in Hc.
    destruct (digit_value c) as [d|] eqn:Hdv; [|discriminate].
    pose proof (digit_value_bound c d Hdv) as Hb.
    exists (Z.of_N d * 10 ^ Z.of_nat (length t) + v)%Z.
    change (length (c :: t)) with (S (length t)).
    rewrite Nat2Z.inj_succ, Z.pow_succ_r by lia.
    split; [nia|].
    intros acc; cbn [digits_to_Z]; rewrite Hdv, Hacc; f_equal; ring.
Qed.

Lemma decimal_digits (s : str) :
  forallb is_digit s = true ->
  digits_to_Z 0 s = Some (decimal s) /\
  (0 <= decimal s < 10 ^ Z.of_nat (length s))%Z.
Proof.
  intros Hd; destruct (digits_to_Z_value s Hd) as [v [Hv Hacc]].
  assert (Ev : (0 * 10 ^ Z.of_nat (length s) + v = v)%Z) by lia.
  unfold decimal; rewrite (Hacc 0%Z), Ev; split; [reflexivity|exact Hv].
Qed.

Lemma decimal_app (a b : str) :
  forallb is_digit a = true -> forallb is_digit b = true ->
  decimal (a ++ b) = (decimal a * 10 ^ Z.of_nat (length b) + decimal b)%Z.
Proof.
  intros Ha Hb.
  assert (Hs : forall acc,
             digits_to_Z acc (a ++ b) =
               match digits_to_Z acc a with
               | Some v => digits_to_Z v b
               | None => None
               end).
  { clear; induction a as [|c a IH]; intros acc; simpl; [reflexivity|].
    destruct (digit_value c); [apply IH|reflexivity]. }
  destruct (decimal_digits a Ha) as [Ea _].
  destruct (digits_to_Z_value b Hb) as [v [Hv Hacc]].
  assert (Eb : decimal b = v)
    by (unfold decimal; rewrite (Hacc 0%Z); cbv beta iota; lia).
  rewrite Eb; unfold decimal at 1; rewrite Hs, Ea, Hacc; reflexivity.
Qed.

Lemma decimal_last_three (tok : str) :
  forallb is_digit tok = true -> (decimal tok <= 100)%Z ->
  decimal (last_three tok) = decimal tok.
Proof.
  intros Hd Hle.
  destruct (Nat.leb_spec (length tok) 3) as [Hl|Hl];
    [rewrite last_three_short by exact Hl; reflexivity|].
  unfold last_three; set (n := (length tok - 3)%nat).
  assert (Hlen : length (skipn n tok) = 3%nat)
    by (rewrite length_skipn; unfold n; lia).
  pose proof Hd as Hd'.
  rewrite <- (firstn_skipn n tok), forallb_app in Hd'.
  apply andb_prop in Hd'; destruct Hd' as [Hhi Hlo].
  pose proof (decimal_app _ _ Hhi Hlo) as Hs.
  rewrite firstn_skipn, Hlen in Hs.
  destruct (decimal_digits _ Hhi) as [_ Bhi].
  destruct (decimal_digits _ Hlo) as [_ Blo].
  change (10 ^ Z.of_nat 3)%Z with 1000%Z in Hs.
  nia.
Qed.

Lemma py_int_digits (g : str) :
  forallb is_digit g = true -> g <> [] -> py_int g = Ok (decimal g).
Proof.
  intros Hd Hne; destruct (decimal_digits g Hd) as [E _].
  unfold py_int; destruct g; [congruence|rewrite E; reflexivity].
Qed.

(** The running maximum after one line, in terms of the token the line ends
    with. *)
Lemma next_percent_token (rm : Z) (line : str) :
  next_percent rm line =
    match percent_token line with
    | Some tok =>
        if Z.leb (decimal tok) 100 then Z.max rm (decimal tok)
        else Z.max rm (Z.min 100 (decimal (last_three tok)))
    | None => rm
    end.
Proof.
  unfold next_percent; rewrite search_percent_token.
  destruct (percent_token line) as [tok|] eqn:Ht; [|reflexivity].
  destruct (percent_token_digits _ _ Ht) as [Hd Hne].
  destruct (last_three_digits tok Hd Hne) as [Hd3 Hne3].
  simpl; rewrite (py_int_digits _ Hd3 Hne3).
  destruct (Z.leb_spec (decimal tok) 100) as [Hle|Hgt]; [|reflexivity].
  rewrite (decimal_last_three tok Hd Hle); lia.
Qed.

(** ** Family and quantization *)

Lemma contains_colon (s : str) :
  contains (lit ":") s = existsb (N.eqb 58) s.
Proof.
  induction s as [|c s IH]; [reflexivity|].
  change (contains (lit ":") (c :: s))
    with ((N.eqb 58 c && true) || contains (lit ":") s).
  rewrite IH, andb_true_r; reflexivity.
Qed.

Lemma after_sep_colon (s : str) :
  match after_sep s with
  | Some _ => existsb (N.eqb 58) s = true
  | None => existsb (N.eqb 58) s = false
  end.
Proof.
  induction s as [|c s IH]; [reflexivity|].
  cbn [after_sep existsb]; rewrite (N.eqb_sym 58 c).
  destruct (N.eqb c 58); [reflexivity|exact IH].
Qed.

Lemma split_sep_first (s : str) :
  forall cur,
    nth_error (split_sep_from 58 None cur s) 0 = Some (rev cur ++ before_sep s).
Proof.
  induction s as [|c s IH]; intros cur.
  - simpl; rewrite app_nil_r; reflexivity.
  - cbn [split_sep_from]; unfold before_sep; cbn [take_while].
    destruct (N.eqb c 58); cbn [negb].
    + rewrite app_nil_r; reflexivity.
    + rewrite IH; cbn [rev]; rewrite <- app_assoc; reflexivity.
Qed.

Lemma split_sep_exhausted (sep : N) (s : str) :
  forall cur, split_sep_from sep (Some 0%nat) cur s = [rev cur ++ s].
Proof.
  induction s as [|c s IH]; intros cur.
  - simpl; rewrite app_nil_r; reflexivity.
  - simpl; destruct (N.eqb c sep); rewrite IH; simpl;
      rewrite <- app_assoc; reflexivity.
Qed.

Lemma split_sep_second (s variant : str) :
  after_sep s = Some variant ->
  forall cur,
    nth_error (split_sep_from 58 (Some 1%nat) cur s) 1 = Some variant.
Proof.
  induction s as [|c s IH]; [discriminate|].
  cbn [after_sep split_sep_from]; intros Ha cur.
  destruct (N.eqb c 58).
  - injection Ha as <-; cbn [nth_error].
    rewrite split_sep_exhausted; reflexivity.
  - apply IH; exact Ha.
Qed.

Lemma before_sep_whole (s : str) :
  existsb (N.eqb 58) s = false -> before_sep s = s.
Proof.
  unfold before_sep; induction s as [|c s IH]; [reflexivity|].
  cbn [existsb take_while]; rewrite (N.eqb_sym 58 c).
  destruct (N.eqb c 58); cbn [negb orb]; [discriminate|].
  intros Hs; rewrite (IH Hs); reflexivity.
Qed.

Lemma family_and_quant_str (s : str) :
  family_and_quant (PStr s) = Ok (derived (PStr s)).
Proof.
  unfold family_and_quant, py_in, py_split, py_item, split_sep, rbind.
  rewrite contains_colon.
  unfold derived, quant_token.
  pose proof (after_sep_colon s) as Hc.
  destruct (after_sep s) as [variant|] eqn:Ha; rewrite Hc.
  - rewrite split_sep_first, (split_sep_second s variant Ha); simpl.
    destruct (search_quant variant); reflexivity.
  - rewrite (before_sep_whole s Hc); reflexivity.
Qed.

Lemma family_and_quant_derived (name : pyval) (fq : pyval * pyval) :
  family_and_quant name = Ok fq -> fq = derived name.
Proof.
  destruct name as [| b | z | f | s | l | d];
    try (intros H; vm_compute in H; discriminate).
  - rewrite family_and_quant_str; intros H; injection H as <-; reflexivity.
  - unfold family_and_quant, py_in, rbind.
    destruct (existsb _ l); simpl; [discriminate|].
    intros H; injection H as <-; reflexivity.
  - unfold family_and_quant, py_in, rbind.
    destruct (existsb _ d); simpl; [discriminate|].
    intros H; injection H as <-; reflexivity.
Qed.

(** ** The loops of list_models *)

Lemma append_loop_Forall {A : Type} (P : OllamaModelInfo -> Prop)
  (body : A -> list OllamaModelInfo -> result (list OllamaModelInfo)) :
  (forall item ms ms', body item ms = Ok ms' -> Forall P ms -> Forall P ms') ->
  forall items ms,
    Forall P ms -> Forall P (fst (append_loop body items ms)).
Proof.
  intros Hbody; induction items as [|item rest IH]; intros ms Hms.
  - exact Hms.
  - simpl; destruct (body item ms) as [ms'|e] eqn:Hb.
    + apply IH; eapply Hbody; eauto.
    + exact Hms.
Qed.

Lemma json_item_rederivable (item : pyval) (ms ms' : list OllamaModelInfo) :
  json_item item ms = Ok ms' ->
  Forall rederivable ms -> Forall rederivable ms'.
Proof.
  unfold json_item, rbind; intros H Hms.
  destruct (py_get item (lit "name") _) as [nm|]; [|discriminate].
  destruct (py_get item (lit "size") _) as [sz|]; [|discriminate].
  destruct (py_get item (lit "modified") _) as [md|]; [|discriminate].
  destruct (py_get item (lit "digest") _) as [dg|]; [|discriminate].
  destruct (if truthy dg then _ else _) as [i|]; [|discriminate].
  destruct (family_and_quant nm) as [fq|] eqn:Hfq; [|discriminate].
  injection H as <-.
  apply Forall_app; split; [exact Hms|].
  constructor; [|constructor].
  unfold rederivable; simpl.
  rewrite <- (family_and_quant_derived nm fq Hfq); destruct fq; reflexivity.
Qed.

Lemma text_line_rederivable (line : str) (ms ms' : list OllamaModelInfo) :
  text_line line ms = Ok ms' ->
  Forall rederivable ms -> Forall rederivable ms'.
Proof.
  unfold text_line; intros H Hms.
  destruct (Nat.ltb _ 4); [injection H as <-; exact Hms|].
  rewrite family_and_quant_str in H; simpl in H; injection H as <-.
  apply Forall_app; split; [exact Hms|].
  constructor; [|constructor].
  reflexivity.
Qed.

(** The loop over the text listing never raises; it appends one record for
    every line that has four tokens or more. *)
Lemma text_loop_rows (lines : list str) :
  forall ms,
  exists rows,
    append_loop text_line lines ms = (ms ++ rows, None) /\
    Forall2 row_of (filter well_formed lines) rows.
Proof.
  induction lines as [|line rest IH]; intros ms.
  - exists []; simpl; rewrite app_nil_r; split; constructor.
  - simpl; unfold text_line at 1, well_formed at 1.
    rewrite family_and_quant_str.
    destruct (Nat.ltb_spec (length (split line)) 4) as [Hl|Hl].
    + replace (Nat.leb 4 (length (split line))) with false
        by (symmetry; apply Nat.leb_gt; exact Hl).
      apply IH.
    + replace (Nat.leb 4 (length (split line))) with true
        by (symmetry; apply Nat.leb_le; exact Hl).
      simpl rbind.
      set (r := ModelInfo _ _ _ _ _ _).
      destruct (IH (ms ++ [r])) as [rows [H1 H2]].
      exists (r :: rows); rewrite H1, <- app_assoc; split; [reflexivity|].
      constructor; [|exact H2].
      destruct (split line) as [|nm [|sz [|m1 [|m2 more]]]] eqn:Hs;
        try (simpl in Hl; lia).
      exists nm, sz, m1, m2, more; subst r; simpl; auto.
Qed.

(** ** list_models returns *)

Lemma list_models_text_ok `{Env} (self : OllamaCLI)
  (ms : list OllamaModelInfo) (w : world) :
  Forall rederivable ms ->
  exists ms', outcome (list_models_text self ms) w = Ok ms' /\
              Forall rederivable ms'.
Proof.
  intros Hms.
  unfold outcome, list_models_text, try_except, bind, subprocess_run,
    list_models_except.
  destruct (binary_path self) as [bin|]; [|exists ms; auto].
  unfold bind, emit, raise, ret; simpl.
  destruct (os_run _ _) as [e|c out err]; simpl; [exists ms; auto|].
  destruct (negb (Z.eqb c 0)); simpl; [exists ms; auto|].
  destruct (Nat.leb _ 1); simpl; [exists ms; auto|].
  match goal with
  | |- context [append_loop text_line ?ls ms] =>
      pose proof (append_loop_Forall rederivable text_line
                    text_line_rederivable ls ms Hms) as Hl;
      destruct (append_loop text_line ls ms) as [ms' [e|]]
  end; simpl in *; exists ms'; auto.
Qed.

Lemma list_models_ok `{Env} (self : OllamaCLI) (w : world) :
  exists ms, outcome (list_models self) w = Ok ms /\ Forall rederivable ms.
Proof.
  unfold outcome, list_models.
  destruct (truthy_opt (binary_path self)); simpl;
    [|exists []; split; [reflexivity|constructor]].
  unfold bind.
  assert (Hj : exists w' fl,
             list_models_json self [] w = (w', Ok fl) /\
             Forall rederivable
               match fl with Return ms => ms | Pass ms => ms end).
  { unfold list_models_json, try_except, bind, subprocess_run.
    destruct (binary_path self) as [bin|];
      [|eexists; exists (Pass []); split; [reflexivity|constructor]].
    unfold bind, emit, raise, ret, lift; simpl.
    destruct (os_run _ _) as [e|c out err]; simpl;
      [eexists; exists (Pass []); split; [reflexivity|constructor]|].
    destruct (negb (Z.eqb c 0)); simpl;
      [eexists; exists (Pass []); split; [reflexivity|constructor]|].
    destruct (strip (or_str out [])) as [|c0 text];
      [eexists; exists (Pass []); split; [reflexivity|constructor]|].
    destruct (json_loads (c0 :: text)) as [data|e]; simpl;
      [|eexists; exists (Pass []); split; [reflexivity|constructor]].
    destruct (py_iter data) as [items|e]; simpl;
      [|eexists; exists (Pass []); split; [reflexivity|constructor]].
    pose proof (append_loop_Forall rederivable json_item
                  json_item_rederivable items [] (Forall_nil _)) as Hl.
    destruct (append_loop json_item items []) as [ms' [e|]]; simpl in *;
      eexists; [exists (Pass ms')|exists (Return ms')]; split;
      try reflexivity; exact Hl. }
  destruct Hj as [w' [fl [Hj Hfl]]]; rewrite Hj.
  destruct fl as [ms|ms]; [exists ms; auto|].
  apply list_models_text_ok; exact Hfl.
Qed.

(** * The claims *)

(** ** Progress of a pull *)

(** C2. Within one call of [pull_model], whatever the process prints and
    whatever the callback does, the percent values handed to [on_progress]
    never decrease: each one is at most every later one. *)
Theorem pull_percents_never_decrease `{Env} (self : OllamaCLI)
  (model_ref : str) (on_progress : option (callback (Z * str))) (w : world) :
  exists evs,
    trace (world_after (pull_model self model_ref on_progress) w)
      = trace w ++ evs
    /\ StronglySorted Z.le (percents evs).
Proof.
  destruct (pull_model_events self model_ref on_progress w)
    as [evs [H1 [H2 _]]].
  exists evs; rewrite H1; auto.
Qed.

(** C10. Every percent value handed to [on_progress] by [pull_model] lies
    between 0 and 100: the running maximum starts at 0, group 1 of a match
    has one to three digits, and one line never lifts the running maximum
    above 100 (a parsed value above 100 counts as 100). *)
Theorem pull_percents_in_range `{Env} (self : OllamaCLI)
  (model_ref : str) (on_progress : option (callback (Z * str))) (w : world) :
  (exists evs,
     trace (world_after (pull_model self model_ref on_progress) w)
       = trace w ++ evs
     /\ Forall (fun p => 0 <= p <= 100)%Z (percents evs))
  /\ (forall line,
        match search_percent line with
        | Some g => (1 <= length g <= 3)%nat /\ forallb is_digit g = true
        | None => True
        end)
  /\ (forall last_percent line,
        (last_percent <= next_percent last_percent line
           <= Z.max last_percent 100)%Z).
Proof.
  split; [|split].
  - destruct (pull_model_events self model_ref on_progress w)
      as [evs [H1 [_ H3]]].
    exists evs; rewrite H1; auto.
  - intros line; destruct (search_percent line) as [g|] eqn:Hs; [|exact I].
    destruct (search_percent_sound _ _ Hs) as [pre [ws [_ [_ [Hd Hl]]]]].
    auto.
  - apply next_percent_bounds.
Qed.

(** C3, the claim as stated fails: after a running maximum of 40 the line
    ["150%"] ends with a token that is not in [0,100], yet the running
    maximum does not stay at 40, it becomes 100. *)
Lemma token_above_hundred_moves_maximum :
  next_percent 40 (lit "150%") = 100%Z /\
  next_percent 40 (lit "150%") <> stated_next_percent 40 (lit "150%").
Proof. split; [reflexivity|vm_compute; discriminate]. Qed.

(** C3, amended. One streamed line, with its line end removed, is looked at
    for the run of digits that stands immediately before a final percent
    sign (whitespace may follow).  If that run parses to a value in [0,100]
    the new running maximum is the larger of the old one and the value; if
    it parses to more than 100, the new running maximum is the larger of the
    old one and the value of the last three digits of the run, capped at 100;
    without such a run the running maximum is unchanged.  In every case the
    callback is called once, with the running maximum and the line. *)
Theorem progress_of_one_line (cb : callback (Z * str)) (last_percent : Z)
  (line : str) (w : world) :
  let shown := rstrip_crlf line in
  let new_max :=
    match percent_token shown with
    | Some tok =>
        if Z.leb (decimal tok) 100 then Z.max last_percent (decimal tok)
        else Z.max last_percent (Z.min 100 (decimal (last_three tok)))
    | None => last_percent
    end in
  pull_loop (Some cb) last_percent [line] w =
    (World (trace w ++ [EvProgress new_max shown]) (files w),
     match cb (trace w) (new_max, shown) with
     | None => Ok new_max
     | Some e => Raise e
     end).
Proof.
  intros shown new_max.
  cbn [pull_loop]; unfold bind, call, ret.
  fold shown; rewrite next_percent_token; fold new_max.
  destruct (cb (trace w) (new_max, shown)); reflexivity.
Qed.

(** ** The inventory *)

(** C4. Every record [list_models] returns, from the structured listing or
    from the text listing, has the family and the quantization its name
    gives: the text before the first [:] (the whole name without one) and
    the token the pattern finds after the first [:] (empty without a match);
    the name ["mistral:7b-q4_0"] gives the quantization ["q4_0"]. *)
Theorem list_models_family_quant `{Env} (self : OllamaCLI) (w : world) :
  (exists ms,
     outcome (list_models self) w = Ok ms /\ Forall rederivable ms)
  /\ derived (PStr (lit "mistral:7b-q4_0"))
     = (PStr (lit "mistral"), PStr (lit "q4_0")).
Proof.
  split; [apply list_models_ok|reflexivity].
Qed.

(** C5. When the structured listing is obtained but [json.loads] raises on
    it, [list_models] does not raise: it goes on with the text listing from
    an empty list of records, and returns a list. *)
Theorem list_models_decode_failure `{Env} (self : OllamaCLI) (bin : str)
  (out err : option str) (e : exn) (w : world) :
  binary_path self = Some bin ->
  bin <> [] ->
  os_run (bin :: [lit "list"; lit "--format"; lit "json"]) (timeout self)
    = RunCompleted 0 out err ->
  strip (or_str out []) <> [] ->
  json_loads (strip (or_str out [])) = Raise e ->
  list_models self w =
    list_models_text self []
      (World (trace w ++
                [EvRun (bin :: [lit "list"; lit "--format"; lit "json"])
                   (timeout self)])
         (files w))
  /\ exists ms, outcome (list_models self) w = Ok ms.
Proof.
  intros Hbin Hne Hrun Htext Hjson.
  split.
  - unfold list_models, list_models_json, try_except, subprocess_run.
    rewrite Hbin.
    destruct bin as [|b bin']; [congruence|].
    cbn [truthy_opt negb].
    unfold bind at 1 2 3; unfold emit.
    rewrite Hrun.
    cbn [andb negb Z.eqb ret stdout].
    destruct (strip (or_str out [])) as [|c text] eqn:Hs; [congruence|].
    unfold bind, lift; rewrite Hjson; reflexivity.
  - destruct (list_models_ok self w) as [ms [Hms _]]; exists ms; exact Hms.
Qed.

Lemma list_models_decode_failure_witness :
  @list_models sample_env sample_cli start =
    @list_models_text sample_env sample_cli []
      (World (trace start ++
                [EvRun (lit "/usr/bin/ollama"
                        :: [lit "list"; lit "--format"; lit "json"]) 15])
         (files start))
  /\ exists ms, outcome (@list_models sample_env sample_cli) start = Ok ms.
Proof.
  apply (@list_models_decode_failure sample_env sample_cli
           (lit "/usr/bin/ollama") (Some (lit "{not json" ++ nl)) (Some [])
           (Exn JSONDecodeError (lit "Expecting property name")) start).
  - reflexivity.
  - discriminate.
  - reflexivity.
  - vm_compute; discriminate.
  - reflexivity.
Defined.

(** C1, the claim as stated fails: on the data line
    ["llama3:8b  abc123  4.7GB  2 days ago"] the record gets the first token
    as name, the second as size and the four others as modification text,
    not the three leading tokens as name, ["2"] as size and ["days ago"] as
    modification text. *)
Lemma text_columns_are_leading_tokens :
  text_line (lit "llama3:8b  abc123  4.7GB  2 days ago") [] =
    Ok [ModelInfo (PStr (lit "llama3:8b")) (PStr (lit "abc123"))
          (PStr (lit "4.7GB 2 days ago")) (PStr [])
          (PStr (lit "llama3")) (PStr [])]
  /\ stated_columns (split (lit "llama3:8b  abc123  4.7GB  2 days ago")) =
       (lit "llama3:8b abc123 4.7GB", lit "2", lit "days ago")
  /\ (lit "llama3:8b", lit "abc123", lit "4.7GB 2 days ago") <>
       stated_columns (split (lit "llama3:8b  abc123  4.7GB  2 days ago")).
Proof.
  split; [reflexivity|split; [reflexivity|vm_compute; discriminate]].
Qed.

(** C1, amended. When the text listing is obtained, every non-blank line
    after the header that has at least four whitespace-separated tokens
    gives one record, in order: its name is the first token, its size the
    second token, its modification text all the remaining tokens joined by
    single blanks.  Every line with fewer than four tokens is skipped, and
    the records of the other lines are still returned, after the records
    already in the list. *)
Theorem text_listing_rows `{Env} (self : OllamaCLI) (bin : str)
  (models : list OllamaModelInfo) (out err : option str) (w : world) :
  binary_path self = Some bin ->
  os_run (bin :: [lit "list"]) (timeout self) = RunCompleted 0 out err ->
  exists rows,
    outcome (list_models_text self models) w = Ok (models ++ rows) /\
    Forall2 row_of (filter well_formed (data_lines (or_str out []))) rows.
Proof.
  intros Hbin Hrun.
  unfold outcome, list_models_text, try_except, subprocess_run.
  rewrite Hbin; unfold bind at 1 2; unfold emit; rewrite Hrun.
  cbn [andb negb Z.eqb ret stdout].
  unfold data_lines.
  set (lines := filter _ (splitlines (or_str out []))).
  destruct (Nat.leb_spec (length lines) 1) as [Hl|Hl].
  - exists []; rewrite app_nil_r; split; [reflexivity|].
    destruct lines as [|l0 [|l1 ls]]; try constructor.
    simpl in Hl; lia.
  - destruct (text_loop_rows (skipn 1 lines) models) as [rows [H1 H2]].
    exists rows; rewrite H1; split; [reflexivity|exact H2].
Qed.

Lemma text_listing_rows_witness :
  exists rows,
    outcome (@list_models_text sample_env sample_cli []) start
      = Ok ([] ++ rows) /\
    Forall2 row_of
      (filter well_formed (data_lines (or_str (Some sample_listing) [])))
      rows.
Proof.
  apply (@text_listing_rows sample_env sample_cli (lit "/usr/bin/ollama") []
           (Some sample_listing) (Some []) start); reflexivity.
Defined.

(** ** Streaming loops *)

Lemma str_eqb_refl (s : str) : str_eqb s s = true.
Proof.
  induction s as [|c s IH]; [reflexivity|].
  cbn [str_eqb]; rewrite N.eqb_refl, IH; reflexivity.
Qed.


Lemma streamed_app (a b : list event) :
  streamed (a ++ b) = streamed a ++ streamed b.
Proof.
  induction a as [|e a IH]; simpl; auto.
  destruct e; simpl; rewrite ?IH; reflexivity.
Qed.

Lemma streamed_lines (lines : list str) :
  streamed (map EvStream lines) = lines.
Proof.
  induction lines as [|l ls IH]; simpl; [|rewrite IH]; reflexivity.
Qed.

Lemma pull_loop_quiet (on_progress : option (callback (Z * str)))
  (lines : list str) :
  never_raises on_progress ->
  forall rm w,
  exists evs rm',
    pull_loop on_progress rm lines w
      = (World (trace w ++ evs) (files w), Ok rm').
Proof.
  intros Hq; induction lines as [|line rest IH]; intros rm w.
  - exists [], rm; simpl; rewrite app_nil_r; destruct w; reflexivity.
  - cbn [pull_loop]; destruct on_progress as [cb|]; [|apply IH].
    unfold bind, call; rewrite (Hq _ _).
    match goal with
    | |- context [pull_loop (Some cb) ?r rest ?w1] =>
        destruct (IH r w1) as [evs [rm' H1]]; rewrite H1
    end.
    eexists (_ :: evs), rm'; cbn [trace files].
    rewrite <- app_assoc; reflexivity.
Qed.

Lemma run_loop_quiet (on_stream : option (callback str)) (lines : list str) :
  never_raises on_stream ->
  forall captured w,
    run_loop on_stream captured lines w =
      (World (trace w ++ match on_stream with
                         | Some _ => map EvStream lines
                         | None => []
                         end) (files w),
       Ok (captured ++ lines)).
Proof.
  intros Hq; induction lines as [|line rest IH]; intros captured w.
  - destruct on_stream, w; simpl; rewrite !app_nil_r; reflexivity.
  - cbn [run_loop]; destruct on_stream as [cb|].
    + unfold bind, call; rewrite (Hq _ _), IH; cbn [trace files map].
      rewrite <- !app_assoc; reflexivity.
    + rewrite IH, <- app_assoc; reflexivity.
Qed.

Lemma create_loop_frame (on_output : option (callback str))
  (lines : list str) :
  forall w,
  exists evs r,
    create_loop on_output lines w = (World (trace w ++ evs) (files w), r).
Proof.
  induction lines as [|line rest IH]; intros w.
  - exists [], (Ok tt); simpl; rewrite app_nil_r; destruct w; reflexivity.
  - cbn [create_loop]; destruct on_output as [cb|]; [|apply IH].
    unfold bind, call.
    destruct (cb (trace w) (rstrip_crlf line)) as [e|].
    + exists [EvOutput (rstrip_crlf line)], (Raise e); reflexivity.
    + match goal with
      | |- context [create_loop (Some cb) rest ?w1] =>
          destruct (IH w1) as [evs [r H1]]; rewrite H1
      end.
      eexists (_ :: evs), r; cbn [trace files].
      rewrite <- app_assoc; reflexivity.
Qed.


(** ** Calls of a callback *)








(** ** The commands, one by one *)

Lemma pull_model_completes `{Env} (self : OllamaCLI) (model_ref : str)
  (on_progress : option (callback (Z * str))) (lines : list str) (code : Z)
  (w : world) :
  popen_starts self [lit "pull"; model_ref] lines code ->
  never_raises on_progress ->
  exists evs,
    pull_model self model_ref on_progress w =
      (World (trace w ++ evs ++ [EvWait code]) (files w),
       Ok (if Z.eqb code 0 then (true, lit "Pull complete")
           else (false,
                 lit "Pull failed (code " ++ str_of_Z code ++ lit ")"))).
Proof.
  intros [bin [Hbin Hp]] Hq.
  unfold pull_model, try_except, subprocess_Popen.
  rewrite Hbin; unfold bind at 1 2; unfold emit; rewrite Hp.
  cbn [ret proc_stdout].
  unfold bind at 1.
  match goal with
  | |- context [pull_loop on_progress ?r lines ?w1] =>
      destruct (pull_loop_quiet on_progress lines Hq r w1) as [evs [rm' H1]];
      rewrite H1
  end.
  unfold wait, bind, emit, ret; cbn [trace files proc_code].
  eexists (_ :: evs).
  destruct (Z.eqb code 0); rewrite <- !app_assoc; reflexivity.
Qed.

Lemma run_model_once_completes `{Env} (self : OllamaCLI)
  (model_name prompt : str) (on_stream : option (callback str))
  (lines : list str) (code : Z) (w : world) :
  popen_starts self [lit "run"; model_name; lit "--nowordwrap"; prompt]
    lines code ->
  never_raises on_stream ->
  exists evs,
    run_model_once self model_name prompt on_stream w =
      (World (trace w ++ evs ++ [EvWait code]) (files w),
       Ok (Z.eqb code 0, join [] lines))
    /\ streamed evs = match on_stream with Some _ => lines | None => [] end.
Proof.
  intros [bin [Hbin Hp]] Hq.
  unfold run_model_once, try_except, subprocess_Popen.
  rewrite Hbin; unfold bind at 1 2; unfold emit; rewrite Hp.
  cbn [ret proc_stdout].
  unfold bind at 1; rewrite (run_loop_quiet on_stream lines Hq).
  unfold wait, bind, emit, ret; cbn [trace files proc_code app].
  eexists (_ :: _); split.
  - rewrite <- !app_assoc; reflexivity.
  - cbn [streamed]; destruct on_stream; [apply streamed_lines|reflexivity].
Qed.

Lemma unlink_in_finally `{Env} (path : str) (w : world) :
  try_except (os_unlink path) (fun _ => ret tt) w =
    (World (trace w ++ [EvUnlink path])
       (match os_unlink_raises path with
        | Some _ => files w
        | None => filter (fun f => negb (str_eqb path f)) (files w)
        end),
     Ok tt).
Proof.
  unfold try_except, os_unlink, ret.
  destruct (os_unlink_raises path); [reflexivity|].
  destruct (existsb (str_eqb path) (files w)) eqn:He; [reflexivity|].
  cbn [trace files]; f_equal; f_equal.
  symmetry; apply forallb_filter_id.
  apply forallb_forall; intros f Hf.
  destruct (str_eqb path f) eqn:Hpf; [|reflexivity].
  assert (Hex : existsb (str_eqb path) (files w) = true)
    by (apply existsb_exists; exists f; auto).
  congruence.
Qed.


Lemma create_body_frame `{Env} (self : OllamaCLI) (name mf_path : str)
  (on_output : option (callback str)) (w : world) :
  exists evs r,
    (proc <- subprocess_Popen (binary_path self)
               [lit "create"; name; lit "-f"; mf_path] ;;
     _ <- create_loop on_output (proc_stdout proc) ;;
     code <- wait proc ;;
     if Z.eqb code 0 then ret (true, lit "Model created")
     else
       ret (false, lit "Create failed (code " ++ str_of_Z code ++ lit ")")) w
    = (World (trace w ++ evs) (files w), r).
Proof.
  unfold subprocess_Popen.
  destruct (binary_path self) as [bin|].
  - unfold bind at 1 2; unfold emit.
    destruct (os_popen _) as [e|lines code].
    + eexists [_], (Raise e); reflexivity.
    + cbn [ret proc_stdout]; unfold bind at 1.
      match goal with
      | |- context [create_loop on_output lines ?w1] =>
          destruct (create_loop_frame on_output lines w1) as [evs [r H1]];
          rewrite H1
      end.
      destruct r as [[]|e].
      * unfold wait, bind, emit, ret; cbn [trace files proc_code].
        destruct (Z.eqb code 0); eexists (_ :: evs ++ [_]), _;
          rewrite <- !app_assoc; reflexivity.
      * eexists (_ :: evs), (Raise e); cbn [trace files].
        rewrite <- app_assoc; reflexivity.
  - exists [], (Raise none_program).
    unfold bind, raise; rewrite app_nil_r; destruct w; reflexivity.
Qed.

(** The terminal commands call [subprocess.run] without [check]. *)
Lemma subprocess_run_unchecked `{Env} (self : OllamaCLI) (args : list str)
  (timeout : Z) (w : world) :
  subprocess_run (binary_path self) args timeout false w =
    match binary_path self with
    | None => (w, Raise none_program)
    | Some bin =>
        (World (trace w ++ [EvRun (bin :: args) timeout]) (files w),
         match os_run (bin :: args) timeout with
         | RunRaises e => Raise e
         | RunCompleted c out err => Ok (Completed c out err)
         end)
    end.
Proof.
  unfold subprocess_run.
  destruct (binary_path self) as [bin|]; [|reflexivity].
  unfold bind, emit.
  destruct (os_run (bin :: args) timeout); reflexivity.
Qed.

Lemma subprocess_Popen_unfold `{Env} (self : OllamaCLI) (args : list str)
  (w : world) :
  subprocess_Popen (binary_path self) args w =
    match binary_path self with
    | None => (w, Raise none_program)
    | Some bin =>
        (World (trace w ++ [EvPopen (bin :: args)]) (files w),
         match os_popen (bin :: args) with
         | PopenRaises e => Raise e
         | PopenStarted lines code => Ok (Proc lines code)
         end)
    end.
Proof.
  unfold subprocess_Popen.
  destruct (binary_path self) as [bin|]; [|reflexivity].
  unfold bind, emit.
  destruct (os_popen (bin :: args)); reflexivity.
Qed.

(** What each command comes to, by what its process does. *)
Lemma remove_model_unfold `{Env} (self : OllamaCLI) (model_name : str)
  (w : world) :
  remove_model self model_name w =
    match subprocess_run (binary_path self) [lit "rm"; model_name] 120 false
            w with
    | (w1, Ok res) =>
        (w1, Ok (Z.eqb (returncode res) 0,
                 strip (or_str (reported (returncode res) (stdout res)
                                  (stderr res))
                          (if Z.eqb (returncode res) 0 then lit "Removed"
                           else lit "Failed to remove"))))
    | (w1, Raise e) => (w1, Ok (false, text e))
    end.
Proof.
  unfold remove_model, try_except, bind, reported.
  destruct (subprocess_run _ _ _ _ w) as [w1 [res|e]]; [|reflexivity].
  destruct (Z.eqb (returncode res) 0); reflexivity.
Qed.

Lemma stop_model_unfold `{Env} (self : OllamaCLI) (model_name : str)
  (w : world) :
  stop_model self model_name w =
    match subprocess_run (binary_path self) [lit "stop"; model_name] 15 false
            w with
    | (w1, Ok res) =>
        (w1, Ok (Z.eqb (returncode res) 0,
                 strip (or_str (reported (returncode res) (stdout res)
                                  (stderr res))
                          (if Z.eqb (returncode res) 0 then lit "Stopped"
                           else lit "Failed to stop"))))
    | (w1, Raise e) => (w1, Ok (false, text e))
    end.
Proof.
  unfold stop_model, try_except, bind, reported.
  destruct (subprocess_run _ _ _ _ w) as [w1 [res|e]]; [|reflexivity].
  destruct (Z.eqb (returncode res) 0); reflexivity.
Qed.


Lemma pull_model_unfold `{Env} (self : OllamaCLI) (model_ref : str)
  (on_progress : option (callback (Z * str))) (w : world) :
  pull_model self model_ref on_progress w =
    match subprocess_Popen (binary_path self) [lit "pull"; model_ref] w with
    | (w1, Ok proc) =>
        match pull_loop on_progress 0 (proc_stdout proc) w1 with
        | (w2, Ok _) =>
            (World (trace w2 ++ [EvWait (proc_code proc)]) (files w2),
             Ok (pull_message (proc_code proc)))
        | (w2, Raise e) => (w2, Ok (false, text e))
        end
    | (w1, Raise e) => (w1, Ok (false, text e))
    end.
Proof.
  unfold pull_model, try_except; unfold bind at 1.
  destruct (subprocess_Popen _ _ w) as [w1 [proc|e]]; [|reflexivity].
  unfold bind at 1.
  destruct (pull_loop on_progress 0 (proc_stdout proc) w1) as [w2 [rm|e]];
    [|reflexivity].
  unfold wait, bind, emit, ret, pull_message; cbn [trace files].
  destruct (Z.eqb (proc_code proc) 0); reflexivity.
Qed.

Lemma run_model_once_unfold `{Env} (self : OllamaCLI)
  (model_name prompt : str) (on_stream : option (callback str)) (w : world) :
  run_model_once self model_name prompt on_stream w =
    match subprocess_Popen (binary_path self)
            [lit "run"; model_name; lit "--nowordwrap"; prompt] w with
    | (w1, Ok proc) =>
        match run_loop on_stream [] (proc_stdout proc) w1 with
        | (w2, Ok captured) =>
            (World (trace w2 ++ [EvWait (proc_code proc)]) (files w2),
             Ok (Z.eqb (proc_code proc) 0, join [] captured))
        | (w2, Raise e) => (w2, Ok (false, text e))
        end
    | (w1, Raise e) => (w1, Ok (false, text e))
    end.
Proof.
  unfold run_model_once, try_except; unfold bind at 1.
  destruct (subprocess_Popen _ _ w) as [w1 [proc|e]]; [|reflexivity].
  unfold bind at 1.
  destruct (run_loop on_stream [] (proc_stdout proc) w1)
    as [w2 [captured|e]]; reflexivity.
Qed.

Lemma prune_unfold `{Env} (self : OllamaCLI) (w : world) :
  prune self w =
    match subprocess_Popen (binary_path self) [lit "prune"] w with
    | (w1, Ok proc) =>
        (World (trace w1 ++ [EvWait (proc_code proc)]) (files w1),
         Ok (Z.eqb (proc_code proc) 0, join [] (proc_stdout proc)))
    | (w1, Raise e) => (w1, Ok (false, text e))
    end.
Proof.
  unfold prune, try_except; unfold bind at 1.
  destruct (subprocess_Popen _ _ w) as [w1 [proc|e]]; [|reflexivity].
  unfold bind at 1.
  rewrite (run_loop_quiet None (proc_stdout proc) I [] w1).
  cbn [app]; rewrite app_nil_r; destruct w1; reflexivity.
Qed.

(** The [try] block under the [finally], by what its process and its
    callback do. *)
Lemma create_body_unfold `{Env} (self : OllamaCLI) (name mf_path : str)
  (on_output : option (callback str)) (w : world) :
  create_body self name mf_path on_output w =
    match subprocess_Popen (binary_path self)
            [lit "create"; name; lit "-f"; mf_path] w with
    | (w1, Ok proc) =>
        match create_loop on_output (proc_stdout proc) w1 with
        | (w2, Ok _) =>
            (World (trace w2 ++ [EvWait (proc_code proc)]) (files w2),
             Ok (create_message (proc_code proc)))
        | (w2, Raise e) => (w2, Raise e)
        end
    | (w1, Raise e) => (w1, Raise e)
    end.
Proof.
  unfold create_body; unfold bind at 1.
  destruct (subprocess_Popen _ _ w) as [w1 [proc|e]]; [|reflexivity].
  unfold bind at 1.
  destruct (create_loop on_output (proc_stdout proc) w1) as [w2 [[]|e]];
    [|reflexivity].
  unfold wait, bind, emit, ret, create_message; cbn [trace files].
  destruct (Z.eqb (proc_code proc) 0); reflexivity.
Qed.

(** What [create_model_from_modelfile] comes to, by the fate of the
    temporary file. *)
Lemma create_by_tempfile `{Env} (self : OllamaCLI)
  (name modelfile_text : str) (on_output : option (callback str))
  (w : world) :
  create_model_from_modelfile self name modelfile_text on_output w =
    match os_tempfile modelfile_text with
    | TempCreateRaises e => (w, Ok (false, text e))
    | TempWriteRaises path e =>
        (World (trace w ++ [EvTempFile path]) (path :: files w),
         Ok (false, text e))
    | TempWritten path =>
        match create_body self name path on_output
                (World (trace w ++ [EvTempFile path]) (path :: files w)) with
        | (w1, r) =>
            (World (trace w1 ++ [EvUnlink path])
               (match os_unlink_raises path with
                | Some _ => files w1
                | None => filter (fun f => negb (str_eqb path f)) (files w1)
                end),
             Ok (match r with
                 | Ok v => v
                 | Raise e => (false, text e)
                 end))
        end
    end.
Proof.
  unfold create_model_from_modelfile, try_except at 1, named_temporary_file.
  destruct (os_tempfile modelfile_text) as [e|path e|path]; try reflexivity.
  unfold bind at 1, try_finally.
  fold (create_body self name path on_output).
  destruct (create_body self name path on_output _) as [w1 r].
  rewrite unlink_in_finally; destruct r; reflexivity.
Qed.



Lemma strip_or_str (stream : option str) (fixed : str) :
  strip fixed = fixed ->
  strip (or_str stream fixed) = terminal_message stream fixed.
Proof.
  intros Hf; unfold or_str, terminal_message.
  destruct stream as [[|c s]|]; cbn [truthy_opt]; auto.
Qed.




(** ** Messages *)




(** C7, the claim as stated fails: with no binary, [show_modelfile] does
    not answer with the not-found message of [ensure_available]; it hands
    the argument vector to [subprocess.run] and reports the text of the
    [TypeError] that comes back. *)
Lemma show_modelfile_unresolved_message :
  outcome (@show_modelfile sample_env unresolved_cli (lit "llama3")) start
    = Ok (false,
          Some (lit "expected str, bytes or os.PathLike object, not NoneType"))
  /\ outcome (@show_modelfile sample_env unresolved_cli (lit "llama3")) start
     <> Ok (false, Some not_found_message)
  /\ outcome (@ensure_available sample_env unresolved_cli) start
     = Ok (false, not_found_message).
Proof.
  split; [reflexivity|split; [vm_compute; discriminate|reflexivity]].
Qed.

(** C7, amended. With no binary, [show_modelfile] never raises and starts no
    process: the call of [subprocess.run] is refused with a [TypeError], the
    handler turns it into a failed outcome whose message is the text of that
    exception, and nothing else has happened. *)
Theorem show_modelfile_unresolved `{Env} (timeout : Z) (model_name : str)
  (w : world) :
  show_modelfile (CLI None timeout) model_name w =
    (w, Ok (false, Some (text none_program))).
Proof. reflexivity. Qed.

(** ** Streaming outcomes *)

(** C8, the claim as stated fails: [run_model_once] hands the line ["hi"]
    with its newline to [on_stream], and the message of its outcome is that
    same line again. *)
Lemma run_message_repeats_streamed_lines :
  streamed (trace (world_after
                     (@run_model_once sample_env sample_cli (lit "llama3")
                        (lit "hello") (Some quiet)) start))
    = [lit "hi" ++ nl]
  /\ outcome (@run_model_once sample_env sample_cli (lit "llama3")
                (lit "hello") (Some quiet)) start
     = Ok (true, lit "hi" ++ nl).
Proof. split; reflexivity. Qed.

(** C8, amended. When the process starts and the callback does not raise,
    [pull_model] and [run_model_once] produce their outcome after
    [proc.wait()] has returned, which is the last thing that happens.  The
    message of [pull_model] is one of two fixed texts chosen by the exit
    code and carries none of the output lines; the message of
    [run_model_once] is the concatenation of all output lines, the lines
    that were handed to [on_stream] one at a time. *)
Theorem streaming_outcomes `{Env} (self : OllamaCLI)
  (model_ref model_name prompt : str)
  (on_progress : option (callback (Z * str)))
  (on_stream : option (callback str))
  (lines1 lines2 : list str) (code1 code2 : Z) (w : world) :
  popen_starts self [lit "pull"; model_ref] lines1 code1 ->
  never_raises on_progress ->
  popen_starts self [lit "run"; model_name; lit "--nowordwrap"; prompt]
    lines2 code2 ->
  never_raises on_stream ->
  (exists evs,
     trace (world_after (pull_model self model_ref on_progress) w)
       = trace w ++ evs ++ [EvWait code1])
  /\ outcome (pull_model self model_ref on_progress) w
     = Ok (if Z.eqb code1 0 then (true, lit "Pull complete")
           else (false,
                 lit "Pull failed (code " ++ str_of_Z code1 ++ lit ")"))
  /\ (exists evs,
        trace (world_after (run_model_once self model_name prompt on_stream)
                 w)
          = trace w ++ evs ++ [EvWait code2]
        /\ streamed evs
           = match on_stream with Some _ => lines2 | None => [] end)
  /\ outcome (run_model_once self model_name prompt on_stream) w
     = Ok (Z.eqb code2 0, join [] lines2).
Proof.
  intros Hpull Hq1 Hrun Hq2.
  destruct (pull_model_completes self model_ref on_progress lines1 code1 w
              Hpull Hq1) as [evs1 Hp].
  destruct (run_model_once_completes self model_name prompt on_stream lines2
              code2 w Hrun Hq2) as [evs2 [Hr Hs]].
  unfold outcome, world_after; rewrite Hp, Hr; cbn [fst snd trace].
  repeat split; eauto.
Qed.

Lemma streaming_outcomes_witness :
  (exists evs,
     trace (world_after
              (@pull_model sample_env sample_cli (lit "llama3") (Some quiet))
              start)
       = trace start ++ evs ++ [EvWait 0])
  /\ outcome (@pull_model sample_env sample_cli (lit "llama3") (Some quiet))
       start
     = Ok (if Z.eqb 0 0 then (true, lit "Pull complete")
           else (false, lit "Pull failed (code " ++ str_of_Z 0 ++ lit ")"))
  /\ (exists evs,
        trace (world_after
                 (@run_model_once sample_env sample_cli (lit "llama3")
                    (lit "hello") (Some quiet)) start)
          = trace start ++ evs ++ [EvWait 0]
        /\ streamed evs = [lit "hi" ++ nl])
  /\ outcome (@run_model_once sample_env sample_cli (lit "llama3")
                (lit "hello") (Some quiet)) start
     = Ok (Z.eqb 0 0, join [] [lit "hi" ++ nl]).
Proof.
  apply (@streaming_outcomes sample_env sample_cli (lit "llama3")
           (lit "llama3") (lit "hello") (Some quiet) (Some quiet)
           [lit "pulling manifest... 57%" ++ nl; lit "30%" ++ nl]
           [lit "hi" ++ nl] 0%Z 0%Z start).
  - eexists; split; reflexivity.
  - intros h a; reflexivity.
  - eexists; split; reflexivity.
  - intros h a; reflexivity.
Defined.

(** ** The temporary Modelfile *)

Lemma create_loop_events (on_output : option (callback str))
  (lines : list str) :
  forall w,
  exists evs r,
    create_loop on_output lines w = (World (trace w ++ evs) (files w), r)
    /\ forallb (fun ev => negb (is_unlink ev)) evs = true.
Proof.
  induction lines as [|line rest IH]; intros w.
  - exists [], (Ok tt); simpl; rewrite app_nil_r; destruct w;
      split; reflexivity.
  - cbn [create_loop]; destruct on_output as [cb|]; [|apply IH].
    unfold bind, call.
    destruct (cb (trace w) (rstrip_crlf line)) as [e|].
    + exists [EvOutput (rstrip_crlf line)], (Raise e); split; reflexivity.
    + match goal with
      | |- context [create_loop (Some cb) rest ?w1] =>
          destruct (IH w1) as [evs [r [H1 H2]]]; rewrite H1
      end.
      eexists (_ :: evs), r; cbn [trace files forallb is_unlink negb andb].
      rewrite <- app_assoc; split; [reflexivity|exact H2].
Qed.

Lemma create_body_events `{Env} (self : OllamaCLI) (name mf_path : str)
  (on_output : option (callback str)) (w : world) :
  exists evs r,
    create_body self name mf_path on_output w
      = (World (trace w ++ evs) (files w), r)
    /\ forallb (fun ev => negb (is_unlink ev)) evs = true.
Proof.
  rewrite create_body_unfold, subprocess_Popen_unfold.
  destruct (binary_path self) as [bin|].
  - destruct (os_popen _) as [e|lines code].
    + eexists [_], (Raise e); split; reflexivity.
    + cbn [proc_stdout proc_code].
      match goal with
      | |- context [create_loop on_output lines ?w1] =>
          destruct (create_loop_events on_output lines w1)
            as [evs [r [H1 H2]]]; rewrite H1
      end.
      cbn [trace files].
      destruct r as [[]|e].
      * eexists (_ :: evs ++ [_]), _; rewrite <- !app_assoc.
        split; [reflexivity|].
        cbn [forallb is_unlink negb andb]; rewrite forallb_app, H2.
        reflexivity.
      * eexists (_ :: evs), (Raise e); rewrite <- app_assoc.
        split; [reflexivity|exact H2].
  - exists [], (Raise none_program); rewrite app_nil_r; destruct w.
    split; reflexivity.
Qed.

(** C9, the claim as stated fails.  The create succeeds, but the operating
    system refuses the removal: [os.unlink] raises, the handler under the
    [finally] swallows it, and the file is still there when the method
    returns its success.  And when the text cannot be written to the file
    that was just created, the [with] block raises before the [try] with
    the [finally] is entered: the file stays, [os.unlink] is never called. *)
Lemma modelfile_left_behind :
  @create_model_from_modelfile
    (with_unlink sample_env
       (fun _ => Some (Exn OSError (lit "[Errno 13] denied"))))
    sample_cli (lit "mine") (lit "FROM llama3") None start
    = (World [EvTempFile (lit "/tmp/tmpk3v9.modelfile");
              EvPopen (lit "/usr/bin/ollama"
                       :: [lit "create"; lit "mine"; lit "-f";
                           lit "/tmp/tmpk3v9.modelfile"]);
              EvWait 0;
              EvUnlink (lit "/tmp/tmpk3v9.modelfile")]
         [lit "/tmp/tmpk3v9.modelfile"],
       Ok (true, lit "Model created"))
  /\ @create_model_from_modelfile (json_env PNone) sample_cli (lit "mine")
       (lit "FROM llama3") None start
     = (World [EvTempFile (lit "/tmp/tmpk3v9.modelfile")]
          [lit "/tmp/tmpk3v9.modelfile"],
        Ok (false, lit "[Errno 28] No space left")).
Proof. split; reflexivity. Qed.

(** C9, amended. Once the temporary file is written,
    [create_model_from_modelfile] calls [os.unlink] on it exactly once, as
    the last thing it does, on every path: the process cannot be started,
    the create succeeds, the process exits with a non-zero code, or a call
    of the callback raises.  The file is gone afterwards when that call
    succeeds; when it raises, the exception is swallowed and the file is
    still there.  When the temporary file cannot be created, nothing has
    happened; when it is created but the text cannot be written to it,
    [os.unlink] is not called and the file stays. *)
Theorem create_removes_modelfile `{Env} (self : OllamaCLI)
  (name modelfile_text : str) (on_output : option (callback str))
  (w : world) :
  (forall path,
     os_tempfile modelfile_text = TempWritten path ->
     (exists evs,
        trace (world_after
                 (create_model_from_modelfile self name modelfile_text
                    on_output) w)
          = trace w ++ EvTempFile path :: evs ++ [EvUnlink path]
        /\ forallb (fun ev => negb (is_unlink ev)) evs = true)
     /\ (os_unlink_raises path = None ->
         ~ In path
             (files (world_after
                       (create_model_from_modelfile self name modelfile_text
                          on_output) w)))
     /\ (forall e,
           os_unlink_raises path = Some e ->
           In path
             (files (world_after
                       (create_model_from_modelfile self name modelfile_text
                          on_output) w))))
  /\ (forall e,
        os_tempfile modelfile_text = TempCreateRaises e ->
        world_after
          (create_model_from_modelfile self name modelfile_text on_output) w
          = w)
  /\ (forall path e,
        os_tempfile modelfile_text = TempWriteRaises path e ->
        world_after
          (create_model_from_modelfile self name modelfile_text on_output) w
          = World (trace w ++ [EvTempFile path]) (path :: files w)).
Proof.
  unfold world_after; rewrite create_by_tempfile.
  split; [|split].
  - intros path Ht; rewrite Ht.
    destruct (create_body_events self name path on_output
                (World (trace w ++ [EvTempFile path]) (path :: files w)))
      as [evs [r [Hb Hev]]].
    rewrite Hb; cbn [fst trace files].
    split; [|split].
    + exists evs; rewrite <- !app_assoc; split; [reflexivity|exact Hev].
    + intros Hu; rewrite Hu; intros Hin.
      apply filter_In in Hin; destruct Hin as [_ Hin].
      rewrite str_eqb_refl in Hin; discriminate.
    + intros e Hu; rewrite Hu; left; reflexivity.
  - intros e Ht; rewrite Ht; reflexivity.
  - intros path e Ht; rewrite Ht; reflexivity.
Qed.

Lemma create_removes_modelfile_witness :
  ((exists evs,
      trace (world_after
               (@create_model_from_modelfile sample_env sample_cli
                  (lit "mine") (lit "FROM llama3") (Some failing)) start)
        = trace start ++ EvTempFile (lit "/tmp/tmpk3v9.modelfile")
            :: evs ++ [EvUnlink (lit "/tmp/tmpk3v9.modelfile")]
      /\ forallb (fun ev => negb (is_unlink ev)) evs = true)
   /\ ~ In (lit "/tmp/tmpk3v9.modelfile")
          (files (world_after
                    (@create_model_from_modelfile sample_env sample_cli
                       (lit "mine") (lit "FROM llama3") (Some failing))
                    start)))
  /\ In (lit "/tmp/tmpk3v9.modelfile")
       (files (world_after
                 (@create_model_from_modelfile
                    (with_unlink sample_env
                       (fun _ => Some (Exn OSError (lit "[Errno 13] denied"))))
                    sample_cli (lit "mine") (lit "FROM llama3") (Some quiet))
                 start))
  /\ world_after
       (@create_model_from_modelfile broken_env sample_cli (lit "mine")
          (lit "FROM llama3") None) start
     = start
  /\ world_after
       (@create_model_from_modelfile (json_env PNone) sample_cli (lit "mine")
          (lit "FROM llama3") None) start
     = World (trace start ++ [EvTempFile (lit "/tmp/tmpk3v9.modelfile")])
         (lit "/tmp/tmpk3v9.modelfile" :: files start).
Proof.
  split; [|split; [|split]].
  - destruct (proj1 (@create_removes_modelfile sample_env sample_cli
                       (lit "mine") (lit "FROM llama3") (Some failing) start)
                (lit "/tmp/tmpk3v9.modelfile") eq_refl) as (Ht & Hgone & _).
    split; [exact Ht|exact (Hgone eq_refl)].
  - destruct (proj1 (@create_removes_modelfile
                       (with_unlink sample_env
                          (fun _ =>
                             Some (Exn OSError (lit "[Errno 13] denied"))))
                       sample_cli (lit "mine") (lit "FROM llama3")
                       (Some quiet) start)
                (lit "/tmp/tmpk3v9.modelfile") eq_refl) as (_ & _ & Hstay).
    exact (Hstay (Exn OSError (lit "[Errno 13] denied")) eq_refl).
  - exact (proj1 (proj2 (@create_removes_modelfile broken_env sample_cli
                           (lit "mine") (lit "FROM llama3") None start))
             (Exn OSError (lit "[Errno 13]")) eq_refl).
  - exact (proj2 (proj2 (@create_removes_modelfile (json_env PNone)
                           sample_cli (lit "mine") (lit "FROM llama3") None
                           start))
             (lit "/tmp/tmpk3v9.modelfile")
             (Exn OSError (lit "[Errno 28] No space left")) eq_refl).
Defined.

(** * Beyond the claims *)

(** ** Commands without a test of the binary *)

(** X1. The commands have no test of [binary_path], unlike
    [ensure_available] and [list_models].  With no binary, [remove_model],
    [show_parameters], [stop_model], [pull_model], [run_model_once] and
    [prune] start no process and call no callback: the [None] program is
    refused with a [TypeError], whose text is the message of the failure
    they return, and the world is left as it is.
    [create_model_from_modelfile] has written its temporary file by then:
    it fails in the same way, and calls [os.unlink] on the file. *)
Theorem commands_without_binary `{Env} (self : OllamaCLI) (w : world) :
  binary_path self = None ->
  (forall model_name,
     remove_model self model_name w = (w, Ok (false, text none_program)))
  /\ (forall model_name,
        show_parameters self model_name w
          = (w, Ok (false, Some (text none_program))))
  /\ (forall model_name,
        stop_model self model_name w = (w, Ok (false, text none_program)))
  /\ (forall model_ref on_progress,
        pull_model self model_ref on_progress w
          = (w, Ok (false, text none_program)))
  /\ (forall model_name prompt on_stream,
        run_model_once self model_name prompt on_stream w
          = (w, Ok (false, text none_program)))
  /\ prune self w = (w, Ok (false, text none_program))
  /\ (forall name modelfile_text on_output path,
        os_tempfile modelfile_text = TempWritten path ->
        trace (world_after
                 (create_model_from_modelfile self name modelfile_text
                    on_output) w)
          = trace w ++ [EvTempFile path; EvUnlink path]
        /\ outcome (create_model_from_modelfile self name modelfile_text
                      on_output) w
           = Ok (false, text none_program)).
Proof.
  intros Hbin.
  repeat match goal with |- _ /\ _ => split end.
  - intros model_name.
    rewrite remove_model_unfold, subprocess_run_unchecked, Hbin; reflexivity.
  - intros model_name.
    unfold show_parameters, try_except, bind, subprocess_run.
    rewrite Hbin; reflexivity.
  - intros model_name.
    rewrite stop_model_unfold, subprocess_run_unchecked, Hbin; reflexivity.
  - intros model_ref on_progress.
    rewrite pull_model_unfold, subprocess_Popen_unfold, Hbin; reflexivity.
  - intros model_name prompt on_stream.
    rewrite run_model_once_unfold, subprocess_Popen_unfold, Hbin; reflexivity.
  - rewrite prune_unfold, subprocess_Popen_unfold, Hbin; reflexivity.
  - intros name modelfile_text on_output path Ht.
    unfold world_after, outcome.
    rewrite create_by_tempfile, Ht, create_body_unfold,
      subprocess_Popen_unfold, Hbin.
    cbn [fst snd trace]; rewrite <- app_assoc; split; reflexivity.
Qed.

Lemma commands_without_binary_witness :
  @remove_model sample_env unresolved_cli (lit "llama3:8b") start
    = (start, Ok (false, text none_program))
  /\ @show_parameters sample_env unresolved_cli (lit "llama3:8b") start
     = (start, Ok (false, Some (text none_program)))
  /\ @stop_model sample_env unresolved_cli (lit "llama3:8b") start
     = (start, Ok (false, text none_program))
  /\ @pull_model sample_env unresolved_cli (lit "llama3") (Some failing) start
     = (start, Ok (false, text none_program))
  /\ @run_model_once sample_env unresolved_cli (lit "llama3") (lit "hello")
       (Some failing) start
     = (start, Ok (false, text none_program))
  /\ @prune sample_env unresolved_cli start
     = (start, Ok (false, text none_program))
  /\ (trace (world_after
               (@create_model_from_modelfile sample_env unresolved_cli
                  (lit "mine") (lit "FROM llama3") (Some failing)) start)
        = trace start ++ [EvTempFile (lit "/tmp/tmpk3v9.modelfile");
                          EvUnlink (lit "/tmp/tmpk3v9.modelfile")]
      /\ outcome (@create_model_from_modelfile sample_env unresolved_cli
                    (lit "mine") (lit "FROM llama3") (Some failing)) start
         = Ok (false, text none_program)).
Proof.
  destruct (@commands_without_binary sample_env unresolved_cli start eq_refl)
    as (H1 & H2 & H3 & H4 & H5 & H6 & H7).
  split; [apply H1|].
  split; [apply H2|].
  split; [apply H3|].
  split; [apply H4|].
  split; [apply H5|].
  split; [exact H6|].
  apply (H7 (lit "mine") (lit "FROM llama3") (Some failing)
           (lit "/tmp/tmpk3v9.modelfile")); reflexivity.
Defined.

(** ** Without a binary *)

(** X2. When [binary_path] is [None] or the empty text, [ensure_available],
    [server_running] and [list_models] start no process and leave the world
    as it is: the first answers with the not-found message, the second with
    [False], the third with an empty list. *)
Theorem unresolved_binary_starts_nothing `{Env} (self : OllamaCLI)
  (w : world) :
  truthy_opt (binary_path self) = false ->
  ensure_available self w = (w, Ok (false, not_found_message))
  /\ server_running self w = (w, Ok false)
  /\ list_models self w = (w, Ok []).
Proof.
  intros Hb.
  assert (He : ensure_available self w = (w, Ok (false, not_found_message)))
    by (unfold ensure_available; rewrite Hb; reflexivity).
  repeat split.
  - exact He.
  - unfold server_running, bind; rewrite He; reflexivity.
  - unfold list_models; rewrite Hb; reflexivity.
Qed.

Lemma unresolved_binary_starts_nothing_witness :
  @ensure_available sample_env (CLI (Some []) 15) start
    = (start, Ok (false, not_found_message))
  /\ @server_running sample_env (CLI (Some []) 15) start = (start, Ok false)
  /\ @list_models sample_env (CLI (Some []) 15) start = (start, Ok []).
Proof.
  apply (@unresolved_binary_starts_nothing sample_env (CLI (Some []) 15)
           start); reflexivity.
Defined.

(** ** The structured listing *)

Lemma json_item_listed (item : pyval) (ms : list OllamaModelInfo) :
  listed item = true ->
  exists r, json_item item ms = Ok (ms ++ [r]) /\ record_of item r.
Proof.
  unfold listed, json_item, record_of, field.
  destruct item as [| | | | | |d]; try discriminate.
  destruct (py_get (PDict d) (lit "name") (PStr [])) as [[| | | |n| |]|] eqn:Hn;
    try discriminate.
  intros _.
  assert (Hget : forall key, exists v,
             py_get (PDict d) key (PStr []) = Ok v).
  { intros key; unfold py_get; destruct (find _ d); eauto. }
  destruct (Hget (lit "size")) as [sz Hsz].
  destruct (Hget (lit "modified")) as [md Hmd].
  destruct (Hget (lit "digest")) as [dg Hdg].
  destruct (Hget (lit "id")) as [i Hi].
  rewrite Hsz, Hmd, Hdg, Hi; cbn [rbind].
  rewrite family_and_quant_str.
  destruct (truthy dg); cbn [rbind]; eexists; (split; [reflexivity|]);
    cbn [name size modified id]; repeat split; reflexivity.
Qed.

Lemma json_loop_listed (items : list pyval) :
  forallb listed items = true ->
  forall ms,
  exists rows,
    append_loop json_item items ms = (ms ++ rows, None) /\
    Forall2 record_of items rows.
Proof.
  induction items as [|item rest IH]; intros Hl ms.
  - exists []; simpl; rewrite app_nil_r; split; constructor.
  - cbn [forallb] in Hl; apply andb_prop in Hl; destruct Hl as [Hi Hr].
    destruct (json_item_listed item ms Hi) as [r [H1 H2]].
    destruct (IH Hr (ms ++ [r])) as [rows [H3 H4]].
    exists (r :: rows); cbn [append_loop]; rewrite H1, H3, <- app_assoc.
    split; [reflexivity|constructor; assumption].
Qed.

Lemma json_item_raise_any (item : pyval) (ms ms' : list OllamaModelInfo)
  (e : exn) :
  json_item item ms = Raise e -> json_item item ms' = Raise e.
Proof.
  unfold json_item, rbind.
  destruct (py_get item (lit "name") _); [|auto].
  destruct (py_get item (lit "size") _); [|auto].
  destruct (py_get item (lit "modified") _); [|auto].
  destruct (py_get item (lit "digest") _); [|auto].
  destruct (if truthy _ then _ else _); [|auto].
  destruct (family_and_quant _); [discriminate|auto].
Qed.

Lemma json_loop_stops (good rest : list pyval) (bad : pyval) (e : exn) :
  forallb listed good = true ->
  json_item bad [] = Raise e ->
  forall ms,
  exists rows,
    append_loop json_item (good ++ bad :: rest) ms = (ms ++ rows, Some e) /\
    Forall2 record_of good rows.
Proof.
  intros Hg Hb; induction good as [|item good IH]; intros ms.
  - exists []; cbn [app append_loop].
    rewrite (json_item_raise_any bad [] ms e Hb), app_nil_r.
    split; constructor.
  - cbn [forallb] in Hg; apply andb_prop in Hg; destruct Hg as [Hi Hr].
    destruct (json_item_listed item ms Hi) as [r [H1 H2]].
    destruct (IH Hr (ms ++ [r])) as [rows [H3 H4]].
    exists (r :: rows); cbn [app append_loop]; rewrite H1, H3, <- app_assoc.
    split; [reflexivity|constructor; assumption].
Qed.

(** The first [try] statement, once the listing is decoded to a list. *)
Lemma list_models_decoded `{Env} (self : OllamaCLI) (bin : str)
  (out err : option str) (items : list pyval) (w : world) :
  binary_path self = Some bin ->
  bin <> [] ->
  os_run (json_argv bin) (timeout self) = RunCompleted 0 out err ->
  strip (or_str out []) <> [] ->
  json_loads (strip (or_str out [])) = Ok (PList items) ->
  list_models self w =
    let w1 := World (trace w ++ [EvRun (json_argv bin) (timeout self)])
                (files w) in
    match append_loop json_item items [] with
    | (ms, None) => (w1, Ok ms)
    | (ms, Some _) => list_models_text self ms w1
    end.
Proof.
  intros Hbin Hne Hrun Htext Hjson.
  unfold list_models, list_models_json, try_except, subprocess_run.
  rewrite Hbin.
  destruct bin as [|b bin']; [congruence|].
  cbn [truthy_opt negb].
  unfold bind at 1 2 3; unfold emit.
  unfold json_argv in Hrun; rewrite Hrun.
  cbn [andb negb Z.eqb ret stdout].
  destruct (strip (or_str out [])) as [|c text] eqn:Hs; [congruence|].
  unfold bind, lift; rewrite Hjson; cbn [py_iter].
  destruct (append_loop json_item items []) as [ms [e|]]; reflexivity.
Qed.

(** X3. When the structured listing decodes to a list of objects whose
    names are text, [list_models] returns exactly one record per entry, in
    the order of the listing, with name, size and modification text read
    from the keys of the entry, the id from [digest] or else from [id], and
    family and quantization derived from the name; the text listing is not
    asked for. *)
Theorem structured_listing_records `{Env} (self : OllamaCLI) (bin : str)
  (out err : option str) (items : list pyval) (w : world) :
  binary_path self = Some bin ->
  bin <> [] ->
  os_run (json_argv bin) (timeout self) = RunCompleted 0 out err ->
  strip (or_str out []) <> [] ->
  json_loads (strip (or_str out [])) = Ok (PList items) ->
  forallb listed items = true ->
  exists ms,
    list_models self w =
      (World (trace w ++ [EvRun (json_argv bin) (timeout self)]) (files w),
       Ok ms)
    /\ Forall2 record_of items ms.
Proof.
  intros Hbin Hne Hrun Htext Hjson Hl.
  rewrite (list_models_decoded self bin out err items w Hbin Hne Hrun Htext
             Hjson).
  destruct (json_loop_listed items Hl []) as [rows [H1 H2]].
  cbv zeta; rewrite H1; exists rows; auto.
Qed.

Lemma structured_listing_records_witness :
  exists ms,
    @list_models (json_env (PList sample_items)) sample_cli start =
      (World (trace start ++ [EvRun (json_argv (lit "/usr/bin/ollama")) 15])
         (files start),
       Ok ms)
    /\ Forall2 record_of sample_items ms.
Proof.
  apply (@structured_listing_records (json_env (PList sample_items))
           sample_cli (lit "/usr/bin/ollama") (Some (lit "[...]" ++ nl))
           (Some []) sample_items start).
  - reflexivity.
  - discriminate.
  - reflexivity.
  - vm_compute; discriminate.
  - reflexivity.
  - reflexivity.
Defined.

(** X4. When an entry of the decoded listing makes the loop raise, the
    records of the entries before it are not discarded: [list_models] goes
    on with the text listing and appends its rows to them. *)
Theorem structured_listing_interrupted `{Env} (self : OllamaCLI) (bin : str)
  (out err : option str) (good rest : list pyval) (bad : pyval) (e : exn)
  (w : world) :
  binary_path self = Some bin ->
  bin <> [] ->
  os_run (json_argv bin) (timeout self) = RunCompleted 0 out err ->
  strip (or_str out []) <> [] ->
  json_loads (strip (or_str out [])) = Ok (PList (good ++ bad :: rest)) ->
  forallb listed good = true ->
  json_item bad [] = Raise e ->
  exists kept,
    Forall2 record_of good kept
    /\ list_models self w =
         list_models_text self kept
           (World (trace w ++ [EvRun (json_argv bin) (timeout self)])
              (files w)).
Proof.
  intros Hbin Hne Hrun Htext Hjson Hg Hb.
  rewrite (list_models_decoded self bin out err _ w Hbin Hne Hrun Htext
             Hjson).
  destruct (json_loop_stops good rest bad e Hg Hb []) as [rows [H1 H2]].
  cbv zeta; rewrite H1; exists rows; auto.
Qed.

Lemma structured_listing_interrupted_witness :
  exists kept,
    Forall2 record_of sample_items kept
    /\ @list_models
         (json_env (PList (sample_items ++ PStr (lit "llama3") :: [])))
         sample_cli start =
       @list_models_text
         (json_env (PList (sample_items ++ PStr (lit "llama3") :: [])))
         sample_cli kept
         (World (trace start
                   ++ [EvRun (json_argv (lit "/usr/bin/ollama")) 15])
            (files start)).
Proof.
  apply (@structured_listing_interrupted
           (json_env (PList (sample_items ++ PStr (lit "llama3") :: [])))
           sample_cli (lit "/usr/bin/ollama") (Some (lit "[...]" ++ nl))
           (Some []) sample_items [] (PStr (lit "llama3"))
           (no_attribute (PStr (lit "llama3")) (lit "get")) start).
  - reflexivity.
  - discriminate.
  - reflexivity.
  - vm_compute; discriminate.
  - reflexivity.
  - reflexivity.
  - reflexivity.
Defined.

(** X5. When the structured listing cannot be had (the process raises, it
    exits with a non-zero code, or it prints nothing but whitespace),
    [json.loads] plays no part: [list_models] is the text listing, started
    from an empty list. *)
Theorem structured_listing_unavailable `{Env} (self : OllamaCLI) (bin : str)
  (w : world) :
  binary_path self = Some bin ->
  bin <> [] ->
  (exists e, os_run (json_argv bin) (timeout self) = RunRaises e)
  \/ (exists c out err,
        os_run (json_argv bin) (timeout self) = RunCompleted c out err
        /\ (c <> 0%Z \/ strip (or_str out []) = [])) ->
  list_models self w =
    list_models_text self []
      (World (trace w ++ [EvRun (json_argv bin) (timeout self)]) (files w)).
Proof.
  intros Hbin Hne Hcase.
  unfold list_models, list_models_json, try_except, subprocess_run.
  rewrite Hbin.
  destruct bin as [|b bin']; [congruence|].
  cbn [truthy_opt negb].
  unfold bind at 1 2 3; unfold emit; unfold json_argv in Hcase.
  destruct Hcase as [[e Hrun]|[c [out [err [Hrun Hc]]]]]; rewrite Hrun.
  - reflexivity.
  - destruct (Z.eqb_spec c 0) as [->|Hnz]; cbn [andb negb].
    + destruct Hc as [Hc|Hc]; [congruence|].
      cbn [ret stdout]; rewrite Hc; reflexivity.
    + reflexivity.
Qed.

Lemma structured_listing_unavailable_witness :
  @list_models broken_env sample_cli start =
    @list_models_text broken_env sample_cli []
      (World (trace start ++ [EvRun (json_argv (lit "/usr/bin/ollama")) 15])
         (files start)).
Proof.
  apply (@structured_listing_unavailable broken_env sample_cli
           (lit "/usr/bin/ollama") start).
  - reflexivity.
  - discriminate.
  - left; eexists; reflexivity.
Defined.

(** X6. When the text listing cannot be had (the process raises or exits
    with a non-zero code), [list_models] keeps the records it has, writes
    one error line to the log and returns them. *)
Theorem text_listing_unavailable `{Env} (self : OllamaCLI) (bin : str)
  (models : list OllamaModelInfo) (e : exn) (w : world) :
  binary_path self = Some bin ->
  os_run (bin :: [lit "list"]) (timeout self) = RunRaises e
  \/ (exists c out err,
        os_run (bin :: [lit "list"]) (timeout self) = RunCompleted c out err
        /\ c <> 0%Z
        /\ e = Exn CalledProcessError
                 (called_process_error_text (bin :: [lit "list"]) c)) ->
  list_models_text self models w =
    (World (trace w ++ [EvRun (bin :: [lit "list"]) (timeout self);
                        EvLogError (lit "Error listing models: " ++ text e)])
       (files w),
     Ok models).
Proof.
  intros Hbin Hcase.
  unfold list_models_text, try_except, subprocess_run, list_models_except.
  rewrite Hbin; unfold bind at 1 2; unfold emit.
  destruct Hcase as [Hrun|[c [out [err [Hrun [Hc ->]]]]]]; rewrite Hrun.
  - unfold raise, bind, emit, ret; cbn [trace files].
    rewrite <- app_assoc; reflexivity.
  - destruct (Z.eqb_spec c 0) as [->|Hnz]; [congruence|].
    cbn [andb negb]; unfold raise, bind, emit, ret; cbn [trace files text].
    rewrite <- app_assoc; reflexivity.
Qed.

Lemma text_listing_unavailable_witness :
  @list_models_text broken_env sample_cli [] start =
    (World (trace start
              ++ [EvRun (lit "/usr/bin/ollama" :: [lit "list"]) 15;
                  EvLogError (lit "Error listing models: "
                              ++ lit "[Errno 8] Exec format")])
       (files start),
     Ok []).
Proof.
  apply (@text_listing_unavailable broken_env sample_cli
           (lit "/usr/bin/ollama") [] (Exn OSError (lit "[Errno 8] Exec format"))
           start).
  - reflexivity.
  - left; reflexivity.
Defined.

(** ** Tokens of a data line *)

Lemma split_from_tokens (s : str) :
  forall cur,
    forallb (fun c => negb (is_space c)) cur = true ->
    Forall (fun t => token t = true) (split_from cur s).
Proof.
  induction s as [|c s IH]; intros cur Hcur.
  - cbn [split_from]. destruct cur as [|d cur]; constructor; [|constructor].
    unfold token.
    destruct (rev (d :: cur)) as [|x l] eqn:Hr.
    + apply (f_equal (@length N)) in Hr; rewrite length_rev in Hr.
      discriminate.
    + rewrite <- Hr, forallb_rev; exact Hcur.
  - cbn [split_from]; destruct (is_space c) eqn:Hc.
    + destruct cur as [|d cur]; [apply IH; reflexivity|].
      constructor; [|apply IH; reflexivity].
      unfold token.
      destruct (rev (d :: cur)) as [|x l] eqn:Hr.
      * apply (f_equal (@length N)) in Hr; rewrite length_rev in Hr.
        discriminate.
      * rewrite <- Hr, forallb_rev; exact Hcur.
    + apply IH; cbn [forallb]; rewrite Hc, Hcur; reflexivity.
Qed.

Lemma token_inv (t : str) :
  token t = true ->
  t <> [] /\ forallb (fun c => negb (is_space c)) t = true.
Proof.
  unfold token; destruct t; [discriminate|]; split; [discriminate|assumption].
Qed.

Lemma split_from_token (t : str) :
  forallb (fun c => negb (is_space c)) t = true ->
  forall cur rest, split_from cur (t ++ rest) = split_from (rev t ++ cur) rest.
Proof.
  induction t as [|c t IH]; intros Ht cur rest; [reflexivity|].
  cbn [forallb] in Ht; apply andb_prop in Ht; destruct Ht as [Hc Ht].
  cbn [app split_from rev].
  apply negb_true_iff in Hc; rewrite Hc, (IH Ht), <- app_assoc; reflexivity.
Qed.

(** Splitting what [" ".join] made of tokens gives the tokens back. *)
Lemma split_join (ts : list str) :
  Forall (fun t => token t = true) ts ->
  split (join (lit " ") ts) = ts.
Proof.
  unfold split; induction ts as [|t ts IH]; intros Hts; [reflexivity|].
  inversion Hts as [|? ? Ht Hts']; subst.
  destruct (token_inv t Ht) as [Hne Hns].
  assert (Hrev : forall rest l,
             split_from (rev t ++ []) rest = l ->
             match rev t with [] => False | _ => True end).
  { intros _ _ _; destruct (rev t) eqn:Hr; [|exact I].
    apply (f_equal (@length N)) in Hr; rewrite length_rev in Hr.
    destruct t; [congruence|discriminate]. }
  destruct ts as [|t2 ts].
  - cbn [join]; rewrite <- (app_nil_r t) at 1.
    rewrite (split_from_token t Hns), app_nil_r; cbn [split_from].
    pose proof (Hrev [] _ eq_refl) as Hr.
    destruct (rev t) as [|x l] eqn:Hx; [contradiction|].
    rewrite <- Hx, rev_involutive; reflexivity.
  - change (join (lit " ") (t :: t2 :: ts))
      with (t ++ 32%N :: join (lit " ") (t2 :: ts)).
    rewrite (split_from_token t Hns), app_nil_r.
    pose proof (Hrev [] _ eq_refl) as Hr.
    cbn [split_from].
    change (is_space 32) with true; cbv iota.
    destruct (rev t) as [|x l] eqn:Hx; [contradiction|].
    rewrite <- Hx, rev_involutive, (IH Hts'); reflexivity.
Qed.

Lemma row_of_text_row (line : str) (r : OllamaModelInfo) :
  row_of line r -> text_row r.
Proof.
  intros [nm [sz [m1 [m2 [more [Hs [Hn [Hz [Hm _]]]]]]]]].
  pose proof (split_from_tokens line [] eq_refl) as Ht.
  fold (split line) in Ht; rewrite Hs in Ht.
  inversion Ht as [|? ? Hnm Ht1]; subst.
  inversion Ht1 as [|? ? Hsz Ht2]; subst.
  exists nm, sz, (join (lit " ") (m1 :: m2 :: more)).
  rewrite (split_join _ Ht2).
  repeat split; auto; simpl; lia.
Qed.

(** X7. Every record that comes from the text listing has a name and a size
    that are single tokens (not empty, no whitespace), and a modification
    text made of two or more tokens with exactly one blank between them:
    splitting it and joining the tokens with single blanks gives it back. *)
Theorem text_listing_tokens `{Env} (self : OllamaCLI) (bin : str)
  (models : list OllamaModelInfo) (out err : option str) (w : world) :
  binary_path self = Some bin ->
  os_run (bin :: [lit "list"]) (timeout self) = RunCompleted 0 out err ->
  exists rows,
    outcome (list_models_text self models) w = Ok (models ++ rows) /\
    Forall text_row rows.
Proof.
  intros Hbin Hrun.
  unfold outcome, list_models_text, try_except, subprocess_run.
  rewrite Hbin; unfold bind at 1 2; unfold emit; rewrite Hrun.
  cbn [andb negb Z.eqb ret stdout].
  set (lines := filter _ (splitlines (or_str out []))).
  destruct (Nat.leb (length lines) 1).
  - exists []; rewrite app_nil_r; split; [reflexivity|constructor].
  - destruct (text_loop_rows (skipn 1 lines) models) as [rows [H1 H2]].
    exists rows; rewrite H1; split; [reflexivity|].
    clear H1; induction H2; constructor; eauto using row_of_text_row.
Qed.

Lemma text_listing_tokens_witness :
  exists rows,
    outcome (@list_models_text sample_env sample_cli []) start
      = Ok ([] ++ rows) /\
    Forall text_row rows.
Proof.
  apply (@text_listing_tokens sample_env sample_cli (lit "/usr/bin/ollama") []
           (Some sample_listing) (Some []) start); reflexivity.
Defined.

(** ** Family and quantization inside the name *)

Lemma before_sep_no_colon (s : str) : ~ In 58%N (before_sep s).
Proof.
  unfold before_sep; induction s as [|c s IH]; [intros []|].
  cbn [take_while]; destruct (N.eqb_spec c 58) as [->|Hc]; cbn [negb].
  - intros [].
  - intros [Hin|Hin]; [congruence|auto].
Qed.

Lemma name_split (s : str) :
  s = before_sep s ++
      match after_sep s with Some variant => 58%N :: variant | None => [] end.
Proof.
  unfold before_sep; induction s as [|c s IH]; [reflexivity|].
  cbn [take_while after_sep]; destruct (N.eqb_spec c 58) as [->|Hc];
    cbn [negb app]; [reflexivity|].
  f_equal; exact IH.
Qed.

Lemma take_while_prefix (p : N -> bool) (s : str) :
  exists rest, s = take_while p s ++ rest.
Proof.
  induction s as [|c s [rest IH]]; [exists []; reflexivity|].
  cbn [take_while]; destruct (p c).
  - exists rest; cbn [app]; f_equal; exact IH.
  - exists (c :: s); reflexivity.
Qed.

Lemma search_quant_sound (s m : str) :
  search_quant s = Some m ->
  quant_shape m /\ exists pre post, s = pre ++ m ++ post.
Proof.
  induction s as [|c s IH]; [discriminate|].
  cbn [search_quant].
  destruct (quant_here (c :: s)) as [m'|] eqn:Hq.
  - intros H; injection H as ->.
    unfold quant_here in Hq.
    destruct s as [|d t]; [discriminate|].
    destruct ((N.eqb c 113 || N.eqb c 81) && is_digit d) eqn:Hc;
      [|discriminate].
    injection Hq as <-.
    apply andb_prop in Hc; destruct Hc as [Hc Hd].
    split.
    + right; exists c, d, (take_while (fun x => negb (N.eqb x 45)) t).
      repeat split; auto.
      * apply orb_prop in Hc; destruct Hc as [Hc|Hc];
          apply N.eqb_eq in Hc; auto.
      * intros Hin.
        pose proof (take_while_forall (fun x => negb (N.eqb x 45)) t) as Hf.
        rewrite forallb_forall in Hf; apply Hf in Hin.
        discriminate.
    + destruct (take_while_prefix (fun x => negb (N.eqb x 45)) t)
        as [rest Hr].
      exists [], rest; cbn [app]; do 2 f_equal; exact Hr.
  - intros H; destruct (IH H) as [Hs [pre [post ->]]].
    split; [exact Hs|exists (c :: pre), post; reflexivity].
Qed.

Lemma derived_name_parts (n : str) :
  name_parts n (before_sep n) (quant_token n).
Proof.
  unfold name_parts, quant_token.
  split; [apply before_sep_no_colon|].
  pose proof (name_split n) as Hn.
  destruct (after_sep n) as [variant|] eqn:Ha.
  - destruct (search_quant variant) as [m|] eqn:Hm.
    + destruct (search_quant_sound variant m Hm) as [Hs Hin].
      split; [exact Hs|right; exists variant; auto].
    + split; [left; reflexivity|right; exists variant; auto].
  - rewrite app_nil_r in Hn; split; [left; reflexivity|left; auto].
Qed.

(** X8. In every record [list_models] returns whose name is text, the
    family is the part of the name before its first [:] and holds no [:];
    the quantization is empty, or it is a piece of the text after that
    first [:], begins with [q] or [Q] followed by a decimal digit, and holds
    no hyphen; a name without [:] is its own family and has no
    quantization. *)
Theorem records_name_parts `{Env} (self : OllamaCLI) (w : world) :
  exists ms,
    outcome (list_models self) w = Ok ms /\
    Forall (fun r =>
              match name r with
              | PStr n =>
                  exists f q,
                    family r = PStr f /\ quant r = PStr q /\ name_parts n f q
              | _ => True
              end) ms.
Proof.
  destruct (list_models_ok self w) as [ms [Hms Hall]].
  exists ms; split; [exact Hms|].
  eapply Forall_impl; [|exact Hall].
  intros r Hr; unfold rederivable in Hr.
  destruct (name r) as [| | | |n| |]; try exact I.
  cbn [derived] in Hr; injection Hr as Hf Hq.
  exists (before_sep n), (quant_token n).
  repeat split; auto; apply derived_name_parts.
Qed.

(** X9. The list of installed bases the adapter check builds with
    [m.name.split(":")[0]] is the list of the families of the records:
    for records with text names the comprehension does not raise and gives,
    record by record, the [family] field. *)
Theorem installed_bases_are_families (models : list OllamaModelInfo) :
  Forall rederivable models ->
  Forall (fun r => exists n, name r = PStr n) models ->
  exists bases,
    installed_bases models = Ok bases /\
    map PStr bases = map family models.
Proof.
  induction models as [|m rest IH]; intros Hr Hn.
  - exists []; split; reflexivity.
  - inversion Hr as [|? ? Hm Hr']; inversion Hn as [|? ? [n Hname] Hn'];
      subst.
    destruct (IH Hr' Hn') as [bases [H1 H2]].
    exists (before_sep n :: bases).
    cbn [installed_bases map]; rewrite Hname.
    unfold py_split, py_item, split_sep, rbind.
    rewrite (split_sep_first n []), H1; cbn [rev app].
    split; [reflexivity|].
    unfold rederivable in Hm; rewrite Hname in Hm; cbn [derived] in Hm.
    injection Hm as Hf _; rewrite Hf, H2; reflexivity.
Qed.

Lemma installed_bases_are_families_witness :
  exists bases,
    installed_bases
      [ModelInfo (PStr (lit "llama3:8b")) (PStr (lit "abc123"))
         (PStr (lit "4.7GB 2 days ago")) (PStr [])
         (PStr (lit "llama3")) (PStr []);
       ModelInfo (PStr (lit "phi")) (PStr (lit "x")) (PStr (lit "y z"))
         (PStr []) (PStr (lit "phi")) (PStr [])]
      = Ok bases /\
    map PStr bases =
      map family
        [ModelInfo (PStr (lit "llama3:8b")) (PStr (lit "abc123"))
           (PStr (lit "4.7GB 2 days ago")) (PStr [])
           (PStr (lit "llama3")) (PStr []);
         ModelInfo (PStr (lit "phi")) (PStr (lit "x")) (PStr (lit "y z"))
           (PStr []) (PStr (lit "phi")) (PStr [])].
Proof.
  apply installed_bases_are_families.
  - repeat constructor.
  - repeat constructor; eexists; reflexivity.
Defined.

(** ** Lines of a pull *)

Lemma rstrip_with_spec (p : N -> bool) (s : str) :
  exists tail,
    s = rstrip_with p s ++ tail /\ forallb p tail = true /\
    (rstrip_with p s = [] \/ p (last (rstrip_with p s) 0%N) = false).
Proof.
  unfold rstrip_with.
  destruct (lstrip_with_split p (rev s)) as [pre [H1 H2]].
  assert (Hs : s = rev (lstrip_with p (rev s)) ++ rev pre).
  { rewrite <- rev_app_distr, <- H1, rev_involutive; reflexivity. }
  exists (rev pre); split; [exact Hs|split; [rewrite forallb_rev; exact H2|]].
  destruct (lstrip_with p (rev s)) as [|c t] eqn:Hl; [left; reflexivity|].
  right; cbn [rev]; rewrite last_last.
  exact (lstrip_with_head p (rev s) c t Hl).
Qed.

(** A line handed on is the raw line without its line end. *)
Lemma rstrip_crlf_spec (line : str) :
  exists tail,
    line = rstrip_crlf line ++ tail /\ forallb is_crlf tail = true /\
    is_crlf (last (rstrip_crlf line) 0%N) = false.
Proof.
  unfold rstrip_crlf.
  destruct (rstrip_with_spec is_crlf line) as [tail [H1 [H2 H3]]].
  exists tail; split; [exact H1|split; [exact H2|]].
  destruct H3 as [H3|H3]; [|exact H3].
  unfold is_crlf in H3 |- *; rewrite H3; reflexivity.
Qed.

Lemma progress_lines_app (a b : list event) :
  progress_lines (a ++ b) = progress_lines a ++ progress_lines b.
Proof.
  induction a as [|e a IH]; simpl; auto.
  destruct e; simpl; rewrite ?IH; reflexivity.
Qed.

Lemma pull_loop_delivers (on_progress : option (callback (Z * str)))
  (lines : list str) :
  never_raises on_progress ->
  forall rm w,
  exists evs rm',
    pull_loop on_progress rm lines w
      = (World (trace w ++ evs) (files w), Ok rm')
    /\ progress_lines evs =
         match on_progress with
         | Some _ => map rstrip_crlf lines
         | None => []
         end.
Proof.
  intros Hq; induction lines as [|line rest IH]; intros rm w.
  - exists [], rm; simpl; rewrite app_nil_r;
      destruct w, on_progress; split; reflexivity.
  - cbn [pull_loop]; destruct on_progress as [cb|]; [|apply IH].
    unfold bind, call; rewrite (Hq _ _).
    match goal with
    | |- context [pull_loop (Some cb) ?r rest ?w1] =>
        destruct (IH r w1) as [evs [rm' [H1 H2]]]; rewrite H1
    end.
    eexists (_ :: evs), rm'; cbn [trace files progress_lines map].
    rewrite <- app_assoc, H2; split; reflexivity.
Qed.

(** X10. When the process starts and the callback returns from every call,
    [pull_model] hands every output line to [on_progress], once and in the
    order the process printed them; each line is handed on without its line
    end: it is the raw line up to a tail of carriage returns and newlines,
    and does not end with one. *)
Theorem pull_delivers_every_line `{Env} (self : OllamaCLI) (model_ref : str)
  (on_progress : option (callback (Z * str))) (lines : list str) (code : Z)
  (w : world) :
  popen_starts self [lit "pull"; model_ref] lines code ->
  never_raises on_progress ->
  (exists evs,
     trace (world_after (pull_model self model_ref on_progress) w)
       = trace w ++ evs
     /\ progress_lines evs =
          match on_progress with
          | Some _ => map rstrip_crlf lines
          | None => []
          end)
  /\ Forall2 (fun raw l =>
                exists tail,
                  raw = l ++ tail /\ forallb is_crlf tail = true /\
                  is_crlf (last l 0%N) = false)
       lines (map rstrip_crlf lines).
Proof.
  intros [bin [Hbin Hp]] Hq; split.
  - unfold world_after, pull_model, try_except, subprocess_Popen.
    rewrite Hbin; unfold bind at 1 2; unfold emit; rewrite Hp.
    cbn [ret proc_stdout]; unfold bind at 1.
    match goal with
    | |- context [pull_loop on_progress ?r lines ?w1] =>
        destruct (pull_loop_delivers on_progress lines Hq r w1)
          as [evs [rm' [H1 H2]]]; rewrite H1
    end.
    unfold wait, bind, emit, ret; cbn [trace files proc_code].
    eexists (_ :: evs ++ [_]).
    destruct (Z.eqb code 0); cbn [fst trace]; rewrite <- !app_assoc;
      (split; [reflexivity|]);
      cbn [progress_lines]; rewrite progress_lines_app, H2;
      cbn [progress_lines]; apply app_nil_r.
  - clear; induction lines as [|l ls IH]; constructor; auto.
    apply rstrip_crlf_spec.
Qed.

Lemma pull_delivers_every_line_witness :
  (exists evs,
     trace (world_after
              (@pull_model sample_env sample_cli (lit "llama3") (Some quiet))
              start)
       = trace start ++ evs
     /\ progress_lines evs =
          map rstrip_crlf
            [lit "pulling manifest... 57%" ++ nl; lit "30%" ++ nl])
  /\ Forall2 (fun raw l =>
                exists tail,
                  raw = l ++ tail /\ forallb is_crlf tail = true /\
                  is_crlf (last l 0%N) = false)
       [lit "pulling manifest... 57%" ++ nl; lit "30%" ++ nl]
       (map rstrip_crlf
          [lit "pulling manifest... 57%" ++ nl; lit "30%" ++ nl]).
Proof.
  apply (@pull_delivers_every_line sample_env sample_cli (lit "llama3")
           (Some quiet)
           [lit "pulling manifest... 57%" ++ nl; lit "30%" ++ nl] 0%Z start).
  - eexists; split; reflexivity.
  - intros h a; reflexivity.
Defined.

(** ** Waiting for the process *)

Lemma pull_loop_no_wait (on_progress : option (callback (Z * str)))
  (lines : list str) :
  forall rm w,
  exists evs r,
    pull_loop on_progress rm lines w = (World (trace w ++ evs) (files w), r)
    /\ forallb (fun ev => negb (is_wait ev)) evs = true.
Proof.
  induction lines as [|line rest IH]; intros rm w.
  - exists [], (Ok rm); simpl; rewrite app_nil_r; destruct w;
      split; reflexivity.
  - cbn [pull_loop]; destruct on_progress as [cb|]; [|apply IH].
    unfold bind, call.
    destruct (cb _ _) as [e|].
    + eexists [_], (Raise e); split; reflexivity.
    + match goal with
      | |- context [pull_loop (Some cb) ?r rest ?w1] =>
          destruct (IH r w1) as [evs [r' [H1 H2]]]; rewrite H1
      end.
      eexists (_ :: evs), r'; cbn [trace files forallb is_wait negb andb].
      rewrite <- app_assoc; split; [reflexivity|exact H2].
Qed.

Lemma pull_model_shape `{Env} (self : OllamaCLI) (model_ref : str)
  (on_progress : option (callback (Z * str))) (w : world) :
  exists evs r,
    pull_model self model_ref on_progress w
      = (World (trace w ++ evs) (files w), Ok r)
    /\ ((exists before code,
            evs = before ++ [EvWait code]
            /\ forallb (fun ev => negb (is_wait ev)) before = true
            /\ r = pull_message code)
         \/ (forallb (fun ev => negb (is_wait ev)) evs = true
             /\ fst r = false)).
Proof.
  unfold pull_model, try_except, subprocess_Popen.
  destruct (binary_path self) as [bin|].
  - unfold bind at 1 2; unfold emit.
    destruct (os_popen _) as [e|lines code].
    + eexists [_], _; split; [reflexivity|right; split; reflexivity].
    + cbn [ret proc_stdout]; unfold bind at 1.
      match goal with
      | |- context [pull_loop on_progress ?r lines ?w1] =>
          destruct (pull_loop_no_wait on_progress lines r w1)
            as [evs [r' [H1 H2]]]; rewrite H1
      end.
      destruct r' as [rm'|e].
      * unfold wait, bind, emit, ret; cbn [trace files proc_code].
        exists (EvPopen (bin :: [lit "pull"; model_ref]) :: evs
                ++ [EvWait code]), (pull_message code).
        split.
        -- unfold pull_message; destruct (Z.eqb code 0);
             rewrite <- !app_assoc; reflexivity.
        -- left; exists (EvPopen (bin :: [lit "pull"; model_ref]) :: evs),
             code; repeat split; exact H2.
      * eexists (_ :: evs), _; cbn [trace files]; rewrite <- app_assoc.
        split; [reflexivity|right; split; [exact H2|reflexivity]].
  - exists [], (false, text none_program); rewrite app_nil_r; destruct w.
    split; [reflexivity|right; split; reflexivity].
Qed.



(** ** The temporary Modelfile, continued *)

(** X12. When the temporary file cannot be created, or the Modelfile text
    cannot be written to it, [create_model_from_modelfile] starts no process
    and does not call [os.unlink]: it returns a failure with the text of the
    exception, and in the second case the file it created is still there. *)
Theorem create_without_modelfile `{Env} (self : OllamaCLI)
  (name modelfile_text : str) (on_output : option (callback str))
  (e : exn) (w : world) :
  (os_tempfile modelfile_text = TempCreateRaises e ->
   create_model_from_modelfile self name modelfile_text on_output w
     = (w, Ok (false, text e)))
  /\ (forall path,
        os_tempfile modelfile_text = TempWriteRaises path e ->
        create_model_from_modelfile self name modelfile_text on_output w
          = (World (trace w ++ [EvTempFile path]) (path :: files w),
             Ok (false, text e))).
Proof.
  split; [intros Ht|intros path Ht]; rewrite create_by_tempfile, Ht;
    reflexivity.
Qed.

Lemma create_without_modelfile_witness :
  @create_model_from_modelfile broken_env sample_cli (lit "mine")
    (lit "FROM llama3") None start
    = (start, Ok (false, lit "[Errno 13]"))
  /\ @create_model_from_modelfile (json_env PNone) sample_cli (lit "mine")
       (lit "FROM llama3") None start
     = (World (trace start ++ [EvTempFile (lit "/tmp/tmpk3v9.modelfile")])
          (lit "/tmp/tmpk3v9.modelfile" :: files start),
        Ok (false, lit "[Errno 28] No space left")).
Proof.
  split.
  - apply (proj1 (@create_without_modelfile broken_env sample_cli (lit "mine")
                    (lit "FROM llama3") None (Exn OSError (lit "[Errno 13]"))
                    start)); reflexivity.
  - apply (proj2 (@create_without_modelfile (json_env PNone) sample_cli
                    (lit "mine") (lit "FROM llama3") None
                    (Exn OSError (lit "[Errno 28] No space left")) start));
      reflexivity.
Defined.

(** X13. Whether [os.unlink] succeeds or is refused makes no difference to
    what [create_model_from_modelfile] returns or to what it does before:
    the outcome and the trace are the same under any behaviour of the
    removal; a refused removal is swallowed and leaves the file there. *)
Theorem create_outcome_ignores_unlink (E : Env) (f : str -> option exn)
  (self : OllamaCLI) (name modelfile_text : str)
  (on_output : option (callback str)) (w : world) :
  outcome (@create_model_from_modelfile (with_unlink E f) self name
             modelfile_text on_output) w
    = outcome (@create_model_from_modelfile E self name modelfile_text
                 on_output) w
  /\ trace (world_after
              (@create_model_from_modelfile (with_unlink E f) self name
                 modelfile_text on_output) w)
     = trace (world_after
                (@create_model_from_modelfile E self name modelfile_text
                   on_output) w)
  /\ (forall path e,
        @os_tempfile E modelfile_text = TempWritten path ->
        f path = Some e ->
        In path
          (files (world_after
                    (@create_model_from_modelfile (with_unlink E f) self name
                       modelfile_text on_output) w))).
Proof.
  unfold outcome, world_after.
  rewrite (@create_by_tempfile (with_unlink E f)),
    (@create_by_tempfile E).
  change (@os_tempfile (with_unlink E f)) with (@os_tempfile E).
  change (@create_body (with_unlink E f)) with (@create_body E).
  change (@os_unlink_raises (with_unlink E f)) with f.
  destruct (@os_tempfile E modelfile_text) as [e|path e|path];
    try (repeat split; intros; discriminate).
  set (w0 := World (trace w ++ [EvTempFile path]) (path :: files w)).
  destruct (@create_body_frame E self name path on_output w0)
    as [evs [r Hb]].
  fold (@create_body E self name path on_output) in Hb; rewrite Hb.
  cbn [fst snd trace files].
  repeat split.
  intros p e Hp Hf; injection Hp as <-; rewrite Hf; left; reflexivity.
Qed.

Lemma create_outcome_ignores_unlink_witness :
  In (lit "/tmp/tmpk3v9.modelfile")
    (files (world_after
              (@create_model_from_modelfile
                 (with_unlink sample_env
                    (fun _ => Some (Exn OSError (lit "[Errno 13] denied"))))
                 sample_cli (lit "mine") (lit "FROM llama3") None) start)).
Proof.
  apply (proj2 (proj2 (create_outcome_ignores_unlink sample_env
                         (fun _ => Some (Exn OSError (lit "[Errno 13] denied")))
                         sample_cli (lit "mine") (lit "FROM llama3") None
                         start))
           (lit "/tmp/tmpk3v9.modelfile")
           (Exn OSError (lit "[Errno 13] denied"))); reflexivity.
Defined.

(** ** The queues and the pump *)

Lemma last_default (A : Type) (l : list A) (x d d' : A) :
  last (x :: l) d = last (x :: l) d'.
Proof.
  revert x; induction l as [|y l IH]; intros x; [reflexivity|].
  change (last (x :: y :: l) d) with (last (y :: l) d).
  change (last (x :: y :: l) d') with (last (y :: l) d').
  apply IH.
Qed.

Lemma pump_status_last (q : list str) (var : str) :
  pump_status q var = ([], last q var).
Proof.
  revert var; induction q as [|m q IH]; intros var; [reflexivity|].
  cbn [pump_status]; rewrite IH.
  destruct q as [|m2 q]; [reflexivity|].
  change (last (m :: m2 :: q) var) with (last (m2 :: q) var).
  f_equal; apply last_default.
Qed.

Lemma pump_progress_last (q : list Z) (var : Z) :
  pump_progress q var = ([], last q var).
Proof.
  revert var; induction q as [|m q IH]; intros var; [reflexivity|].
  cbn [pump_progress]; rewrite IH.
  destruct q as [|m2 q]; [reflexivity|].
  change (last (m :: m2 :: q) var) with (last (m2 :: q) var).
  f_equal; apply last_default.
Qed.

Lemma pump_log_app (q : list str) (logged : list str) :
  pump_log q logged = ([], logged ++ q).
Proof.
  revert logged; induction q as [|l q IH]; intros logged.
  - rewrite app_nil_r; reflexivity.
  - cbn [pump_log]; rewrite IH, <- app_assoc; reflexivity.
Qed.

Lemma pump_eq (a : ModelAdminApp) :
  pump a =
    App [] [] [] (last (status_q a) (status_var a))
      (last (progress_q a) (progress_var a)) (logged a ++ log_q a)
      (refreshes a).
Proof.
  unfold pump; rewrite pump_status_last, pump_progress_last, pump_log_app.
  reflexivity.
Qed.

(** X14. One run of the pump empties the three queues; the status label
    then shows the status put last and the progress bar the progress value
    put last (each is left alone when its queue was empty), and every log
    line that was queued has been logged, after what was logged before and
    in the order of the puts. *)
Theorem pump_drains (a : ModelAdminApp) :
  status_q (pump a) = []
  /\ progress_q (pump a) = []
  /\ log_q (pump a) = []
  /\ status_var (pump a) = last (status_q a) (status_var a)
  /\ progress_var (pump a) = last (progress_q a) (progress_var a)
  /\ logged (pump a) = logged a ++ log_q a.
Proof.
  rewrite pump_eq; repeat split.
Qed.

Lemma apply_puts_fields (ps : list put) :
  forall a,
    status_q (apply_puts ps a) = status_q a ++ put_statuses ps
    /\ progress_q (apply_puts ps a) = progress_q a ++ put_progresses ps
    /\ log_q (apply_puts ps a) = log_q a ++ put_logs ps
    /\ status_var (apply_puts ps a) = status_var a
    /\ progress_var (apply_puts ps a) = progress_var a
    /\ logged (apply_puts ps a) = logged a
    /\ refreshes (apply_puts ps a) = refreshes a.
Proof.
  induction ps as [|p ps IH]; intros a.
  - cbn; rewrite !app_nil_r; repeat split.
  - cbn [apply_puts].
    destruct (IH (apply_put p a)) as [H1 [H2 [H3 [H4 [H5 [H6 H7]]]]]].
    rewrite H1, H2, H3, H4, H5, H6, H7.
    destruct p; cbn [apply_put put_status put_progress put_log status_q
      progress_q log_q status_var progress_var logged refreshes put_statuses
      put_progresses put_logs]; rewrite <- ?app_assoc; repeat split.
Qed.

Lemma last_app_default (A : Type) (q1 q2 : list A) (d : A) :
  last (q1 ++ q2) d = last q2 (last q1 d).
Proof.
  induction q1 as [|x q1 IH]; [reflexivity|].
  destruct q1 as [|y q1].
  - destruct q2 as [|z q2]; [reflexivity|].
    change (last ([x] ++ z :: q2) d) with (last (z :: q2) d).
    apply last_default.
  - change (last ((x :: y :: q1) ++ q2) d) with (last ((y :: q1) ++ q2) d).
    rewrite IH; reflexivity.
Qed.

(** X15. It makes no difference when the pump runs: pumping, letting a
    thread put any sequence of status, progress and log entries, and
    pumping again leaves the application in the state one pump after all
    the puts leaves it in.  No entry is lost, reordered or shown twice. *)
Theorem pump_timing_irrelevant (ps : list put) (a : ModelAdminApp) :
  pump (apply_puts ps (pump a)) = pump (apply_puts ps a).
Proof.
  destruct (apply_puts_fields ps a) as [H1 [H2 [H3 [H4 [H5 [H6 H7]]]]]].
  destruct (apply_puts_fields ps (pump a))
    as [G1 [G2 [G3 [G4 [G5 [G6 G7]]]]]].
  rewrite (pump_eq (apply_puts ps (pump a))), (pump_eq (apply_puts ps a)).
  rewrite G1, G2, G3, G4, G5, G6, G7, H1, H2, H3, H4, H5, H6, H7.
  rewrite (pump_eq a).
  cbn [status_q progress_q log_q status_var progress_var logged refreshes
       app].
  rewrite !last_app_default, app_assoc; reflexivity.
Qed.

(** ** Progress values of a create *)

(** X16. The closure [on_out] of the three create dialogs puts every line
    it is given into the log queue, and puts a progress value only for a
    line that ends with digits and a percent sign: the value of the last
    three digits at most, so a number between 0 and 999 (it is not capped at
    100 and not compared with earlier values). *)
Theorem on_out_puts (line : str) (a : ModelAdminApp) :
  log_q (on_out line a) = log_q a ++ [line]
  /\ status_q (on_out line a) = status_q a
  /\ progress_q (on_out line a) =
       progress_q a ++
       match percent_token line with
       | Some tok => [decimal (last_three tok)]
       | None => []
       end
  /\ match percent_token line with
     | Some tok => (0 <= decimal (last_three tok) <= 999)%Z
     | None => True
     end.
Proof.
  unfold on_out; rewrite search_percent_token.
  destruct (percent_token line) as [tok|] eqn:Ht; cbn [option_map].
  - destruct (percent_token_digits _ _ Ht) as [Hd Hne].
    destruct (last_three_digits tok Hd Hne) as [Hd3 Hne3].
    rewrite (py_int_digits _ Hd3 Hne3).
    cbn [put_progress put_log log_q status_q progress_q].
    repeat split.
    + apply (decimal_digits _ Hd3).
    + destruct (decimal_digits _ Hd3) as [_ [_ Hb]].
      assert (Hl : (length (last_three tok) <= 3)%nat)
        by (unfold last_three; rewrite length_skipn; lia).
      assert (Hp : (10 ^ Z.of_nat (length (last_three tok)) <= 10 ^ 3)%Z)
        by (apply Z.pow_le_mono_r; lia).
      lia.
  - cbn [put_log log_q status_q progress_q]; rewrite app_nil_r.
    repeat split.
Qed.

(** ** A pull seen from the window *)

Lemma replay_all_fields (evs : list event) :
  forall a,
    status_q (replay_all evs a) = status_q a
    /\ progress_q (replay_all evs a)
       = progress_q a ++ map or_zero (percents evs)
    /\ log_q (replay_all evs a) = log_q a ++ progress_lines evs
    /\ status_var (replay_all evs a) = status_var a
    /\ progress_var (replay_all evs a) = progress_var a
    /\ logged (replay_all evs a) = logged a
    /\ refreshes (replay_all evs a) = refreshes a.
Proof.
  induction evs as [|ev evs IH]; intros a.
  - cbn; rewrite !app_nil_r; repeat split.
  - cbn [replay_all].
    destruct (IH (replay ev a)) as [H1 [H2 [H3 [H4 [H5 [H6 H7]]]]]].
    rewrite H1, H2, H3, H4, H5, H6, H7.
    destruct ev; cbn [replay on_progress put_log put_progress status_q
      progress_q log_q status_var progress_var logged refreshes percents
      progress_lines map]; rewrite <- ?app_assoc; repeat split.
Qed.

Lemma skipn_app_exact (A : Type) (l1 l2 : list A) :
  skipn (length l1) (l1 ++ l2) = l2.
Proof.
  rewrite skipn_app, skipn_all, Nat.sub_diag; reflexivity.
Qed.

(** X17. After the thread of a pull has finished and the pump has run, the
    progress bar shows 100 when the pull succeeded and 0 when it failed
    (whatever percentage was reached on the way), the status label shows
    ["Ready"], one refresh of the model list has been asked for, and the
    log holds the output lines in the order the process printed them,
    followed by the message of the outcome. *)
Theorem pull_registry_then_pump `{Env} (self : OllamaCLI) (ref : str)
  (a : ModelAdminApp) (w : world) :
  exists ok msg evs,
    pull_model self ref (Some quiet) w
      = (World (trace w ++ evs) (files w), Ok (ok, msg))
    /\ snd (pull_registry_work self ref a w) = World (trace w ++ evs) (files w)
    /\ progress_var (pump (fst (pull_registry_work self ref a w)))
       = (if ok then 100 else 0)%Z
    /\ status_var (pump (fst (pull_registry_work self ref a w)))
       = lit "Ready"
    /\ logged (pump (fst (pull_registry_work self ref a w)))
       = logged a ++ log_q a ++ progress_lines evs ++ [msg]
    /\ refreshes (pump (fst (pull_registry_work self ref a w)))
       = S (refreshes a).
Proof.
  destruct (pull_model_shape self ref (Some quiet) w)
    as [evs [[ok msg] [Hp _]]].
  exists ok, msg, evs; split; [exact Hp|].
  unfold pull_registry_work; rewrite Hp.
  cbn [trace fst snd]; rewrite skipn_app_exact.
  destruct (replay_all_fields evs a) as [H1 [H2 [H3 [H4 [H5 [H6 H7]]]]]].
  rewrite pump_eq.
  unfold put_progress, put_status, after_refresh, put_log.
  cbn [status_q progress_q log_q status_var progress_var logged refreshes].
  rewrite !last_last, H3, H6, H7, <- !app_assoc.
  repeat split.
Qed.

(** ** The server check *)

(** X18. With a binary, [server_running] answers [True] exactly when
    [--version] and then [list] (with a timeout of 5 seconds, not the
    timeout of the object) both run and exit with code 0; what the two
    processes print plays no part. *)
Theorem server_running_spec `{Env} (self : OllamaCLI) (bin : str)
  (w : world) :
  binary_path self = Some bin ->
  bin <> [] ->
  outcome (server_running self) w =
    Ok (exits_zero (os_run (bin :: [lit "--version"]) (timeout self))
        && exits_zero (os_run (bin :: [lit "list"]) 5)).
Proof.
  intros Hbin Hne.
  unfold outcome, server_running, ensure_available, try_except,
    subprocess_run, bind.
  rewrite Hbin; destruct bin as [|b bin']; [congruence|].
  cbn [truthy_opt negb]; unfold emit, raise, ret.
  destruct (os_run (_ :: [lit "--version"]) _) as [e|c out err];
    cbn [exits_zero andb fst snd negb trace files]; [reflexivity|].
  cbn [returncode]; destruct (Z.eqb c 0); cbn [fst negb andb];
    [|reflexivity].
  destruct (os_run (_ :: [lit "list"]) _) as [e|c2 out2 err2];
    cbn [exits_zero snd]; [reflexivity|].
  destruct (Z.eqb c2 0); reflexivity.
Qed.

Lemma server_running_spec_witness :
  outcome (@server_running sample_env sample_cli) start =
    Ok (exits_zero (@os_run sample_env
                      (lit "/usr/bin/ollama" :: [lit "--version"]) 15)
        && exits_zero (@os_run sample_env
                         (lit "/usr/bin/ollama" :: [lit "list"]) 5)).
Proof.
  apply (@server_running_spec sample_env sample_cli (lit "/usr/bin/ollama")
           start); [reflexivity|discriminate].
Defined.

(** ** Messages of the terminal commands *)

Lemma strip_empty_iff (s : str) :
  strip s = [] <-> forallb is_space s = true.
Proof.
  rewrite strip_unfold; split.
  - intros Hs.
    destruct (lstrip_with_split is_space s) as [pre [H1 H2]].
    destruct (lstrip_with_split is_space (rev (lstrip_with is_space s)))
      as [pre2 [H3 H4]].
    assert (Hl : lstrip_with is_space (rev (lstrip_with is_space s)) = []).
    { rewrite <- (rev_involutive (lstrip_with _ (rev _))), Hs; reflexivity. }
    rewrite Hl, app_nil_r in H3.
    rewrite H1, forallb_app, H2, <- (forallb_rev is_space), H3, H4.
    reflexivity.
  - intros Hs.
    rewrite <- (app_nil_r s), lstrip_with_all by exact Hs; reflexivity.
Qed.

Lemma terminal_message_empty (stream : option str) (fixed : str) :
  fixed <> [] ->
  terminal_message stream fixed = [] <->
  exists s, stream = Some s /\ s <> [] /\ forallb is_space s = true.
Proof.
  intros Hne; unfold terminal_message.
  destruct stream as [[|c s]|].
  - split; [congruence|].
    intros [s [Hs [Hn _]]]; injection Hs as <-; congruence.
  - rewrite strip_empty_iff; split.
    + intros Hs; exists (c :: s); repeat split; [discriminate|exact Hs].
    + intros [s' [Hs [_ Ha]]]; injection Hs as <-; exact Ha.
  - split; [congruence|].
    intros [s [Hs _]]; discriminate.
Qed.

(** X19. [remove_model] and [stop_model], once the process has come back:
    nothing has happened but that one run, the command succeeded exactly
    when the exit code is 0, and the message is read from standard output
    then, from standard error otherwise.  When that stream has text, the
    message is the stream with the whitespace around it taken off; when it
    is missing or empty, the message is the fixed text of the method.  The
    message is empty only when the stream is not empty and holds nothing but
    whitespace. *)
Theorem terminal_messages `{Env} (self : OllamaCLI) (bin : str) (w : world) :
  binary_path self = Some bin ->
  (forall model_name c out err,
     os_run (bin :: [lit "rm"; model_name]) 120 = RunCompleted c out err ->
     exists msg,
       remove_model self model_name w =
         (World (trace w ++ [EvRun (bin :: [lit "rm"; model_name]) 120])
            (files w),
          Ok (Z.eqb c 0, msg))
       /\ msg = match reported c out err with
                | Some (ch :: s) => strip (ch :: s)
                | _ => if Z.eqb c 0 then lit "Removed"
                       else lit "Failed to remove"
                end
       /\ (msg = [] <->
           exists s, reported c out err = Some s /\ s <> []
                     /\ forallb is_space s = true))
  /\ (forall model_name c out err,
        os_run (bin :: [lit "stop"; model_name]) 15 = RunCompleted c out err ->
        exists msg,
          stop_model self model_name w =
            (World (trace w ++ [EvRun (bin :: [lit "stop"; model_name]) 15])
               (files w),
             Ok (Z.eqb c 0, msg))
          /\ msg = match reported c out err with
                   | Some (ch :: s) => strip (ch :: s)
                   | _ => if Z.eqb c 0 then lit "Stopped"
                          else lit "Failed to stop"
                   end
          /\ (msg = [] <->
              exists s, reported c out err = Some s /\ s <> []
                        /\ forallb is_space s = true)).
Proof.
  intros Hbin; split.
  - intros model_name c out err Hrun.
    rewrite remove_model_unfold, subprocess_run_unchecked, Hbin, Hrun.
    cbn [returncode stdout stderr].
    rewrite strip_or_str by (destruct (Z.eqb c 0); reflexivity).
    eexists; split; [reflexivity|split; [reflexivity|]].
    apply terminal_message_empty; destruct (Z.eqb c 0); discriminate.
  - intros model_name c out err Hrun.
    rewrite stop_model_unfold, subprocess_run_unchecked, Hbin, Hrun.
    cbn [returncode stdout stderr].
    rewrite strip_or_str by (destruct (Z.eqb c 0); reflexivity).
    eexists; split; [reflexivity|split; [reflexivity|]].
    apply terminal_message_empty; destruct (Z.eqb c 0); discriminate.
Qed.

Lemma terminal_messages_witness :
  @remove_model sample_env sample_cli (lit "llama3:8b") start
    = (World [EvRun (lit "/usr/bin/ollama" :: [lit "rm"; lit "llama3:8b"])
                120] [],
       Ok (true, lit "deleted 'llama3:8b'"))
  /\ @stop_model sample_env sample_cli (lit "llama3:8b") start
     = (World [EvRun (lit "/usr/bin/ollama" :: [lit "stop"; lit "llama3:8b"])
                 15] [],
        Ok (false, lit "Error: not running")).
Proof.
  destruct (@terminal_messages sample_env sample_cli (lit "/usr/bin/ollama")
              start eq_refl) as [Hrm Hstop].
  split.
  - destruct (Hrm (lit "llama3:8b") 0%Z
                (Some (lit "deleted 'llama3:8b'" ++ nl)) (Some []) eq_refl)
      as [msg [Ho [Hm _]]].
    rewrite Ho, Hm; reflexivity.
  - destruct (Hstop (lit "llama3:8b") 1%Z (Some [])
                (Some (lit "Error: not running" ++ nl)) eq_refl)
      as [msg [Ho [Hm _]]].
    rewrite Ho, Hm; reflexivity.
Defined.

(** ** The generated Modelfile *)

Lemma strip_stripped (s : str) : stripped s = true -> strip s = s.
Proof.
  unfold stripped; destruct s as [|c t]; [reflexivity|].
  intros Hs; apply andb_prop in Hs; destruct Hs as [Hc Hl].
  apply negb_true_iff in Hc, Hl.
  rewrite strip_unfold; cbn [lstrip_with]; rewrite Hc.
  destruct (exists_last (l := c :: t)) as [s' [d Hd]]; [discriminate|].
  rewrite Hd in Hl |- *; rewrite last_last in Hl.
  rewrite rev_app_distr; cbn [rev app lstrip_with]; rewrite Hl.
  cbn [rev]; rewrite rev_involutive; reflexivity.
Qed.

Lemma stripped_ends (c d : N) (t s : str) :
  is_space c = false -> is_space d = false ->
  c :: t = s ++ [d] -> stripped (c :: t) = true.
Proof.
  intros Hc Hd He; unfold stripped.
  rewrite He, last_last, Hc, Hd; reflexivity.
Qed.

Lemma join_last (sep : str) (front : list str) (l : str) (d : N) :
  exists s, join sep (front ++ [l ++ [d]]) = s ++ [d].
Proof.
  induction front as [|x front [s IH]]; [exists l; reflexivity|].
  exists (x ++ sep ++ s).
  change ((x :: front) ++ [l ++ [d]]) with (x :: front ++ [l ++ [d]]).
  destruct (front ++ [l ++ [d]]) as [|y rest] eqn:Hf.
  - destruct front; discriminate.
  - change (join sep (x :: y :: rest)) with (x ++ sep ++ join sep (y :: rest)).
    rewrite IH, <- !app_assoc; reflexivity.
Qed.

(** Lines joined by a separator begin as the first line begins and end as
    the last line ends. *)
Lemma stripped_join (sep : str) (c d : N) (t l : str) (front : list str) :
  is_space c = false -> is_space d = false ->
  stripped (join sep (((c :: t) :: front) ++ [l ++ [d]])) = true.
Proof.
  intros Hc Hd.
  destruct (join_last sep ((c :: t) :: front) l d) as [s Hs].
  destruct (front ++ [l ++ [d]]) as [|y rest] eqn:Hf;
    [destruct front; discriminate|].
  change (((c :: t) :: front) ++ [l ++ [d]])
    with ((c :: t) :: front ++ [l ++ [d]]) in *.
  rewrite Hf in *.
  change (join sep ((c :: t) :: y :: rest))
    with (c :: t ++ sep ++ join sep (y :: rest)) in *.
  eapply stripped_ends; eauto.
Qed.

(** X20. [_hf_generate_modelfile] writes nothing when the model id is empty
    or blank.  Otherwise the text it writes begins with ["FROM "] (followed
    by the base, or by [llama3] when the base is blank) and has no leading
    or trailing whitespace, so the [strip] applied when the preview is read
    back for the create leaves it as generated. *)
Theorem hf_modelfile_survives_strip (hf_id_var hf_base_var : str)
  (hf_translation_var : bool) :
  match hf_generate_modelfile hf_id_var hf_base_var hf_translation_var with
  | None => forallb is_space hf_id_var = true
  | Some modelfile =>
      forallb is_space hf_id_var = false
      /\ starts_with
           (lit "FROM " ++ or_str (Some (strip hf_base_var)) (lit "llama3"))
           modelfile = true
      /\ strip modelfile = modelfile
  end.
Proof.
  unfold hf_generate_modelfile.
  destruct (strip hf_id_var) as [|c hf_id] eqn:Hid.
  - apply strip_empty_iff; exact Hid.
  - split; [|split].
    + destruct (forallb is_space hf_id_var) eqn:Hs; [|reflexivity].
      apply strip_empty_iff in Hs; congruence.
    + set (base := or_str _ _).
      assert (Hsw : forall a b, starts_with a (a ++ b) = true).
      { clear; induction a as [|x a IH]; intros b; [reflexivity|].
        cbn [app starts_with]; rewrite N.eqb_refl, IH; reflexivity. }
      destruct hf_translation_var; cbn [app join]; apply Hsw.
    + apply strip_stripped.
      set (base := or_str _ _).
      destruct hf_translation_var.
      * exact (stripped_join [10%N] 70 34 (lit "ROM " ++ base) [34%N; 34%N]
                 [lit "HF_MODEL_ID " ++ c :: hf_id;
                  lit "PARAMETER temperature 0.7";
                  lit "PARAMETER num_ctx 4096";
                  lit "SYSTEM " ++ [34%N]
                    ++ lit "You are a helpful assistant." ++ [34%N];
                  lit "TEMPLATE " ++ [34%N; 34%N; 34%N];
                  lit "{{ .System }}";
                  [];
                  lit "Translate the following text to English:";
                  [];
                  lit "{{ .Prompt }}";
                  [];
                  lit "Translation:"]
                 eq_refl eq_refl).
      * exact (stripped_join [10%N] 70 34 (lit "ROM " ++ base)
                 (lit "SYSTEM " ++ [34%N]
                    ++ lit "You are a helpful assistant.")
                 [lit "HF_MODEL_ID " ++ c :: hf_id;
                  lit "PARAMETER temperature 0.7";
                  lit "PARAMETER num_ctx 4096"]
                 eq_refl eq_refl).
Qed.
